(** * devonthink-plus: the scripting bridge and its pagination layer

    A shallow embedding of [src/server.js]: the two script runners
    ([runJXA], [runAppleScript]), the four scripts the tool handlers build
    (given by what they compute against the DEVONthink application), the three
    handlers and the top-level tool dispatch, followed by the properties of the
    pagination protocol, the navigation-output parser, the search filter and
    caps, the error handling of the dispatch and the temporary script files.

    Conventions of the embedding.
    - A JavaScript string is the list of its UTF-16 code units ([jsstring]);
      [lit] turns an ASCII literal into such a list.
    - The numeric tool arguments are character and document counts; they are
      integers ([Z]), and an omitted argument is [None].
    - A JXA script prints [JSON.stringify] of an object and its caller reads it
      back with [JSON.parse]; the embedding passes the object itself
      ([Payload]).
    - Code that can throw lives in the monad [M]: a state (the files, the
      clock, the log of spawned processes) threaded through a result that is a
      value or a thrown error. What lies outside the program is the [Env]: the
      temporary directory, whether a write succeeds, the DEVONthink database
      and what may go wrong with a process (crash, hang). *)

From Stdlib Require Import ZArith List Lia Bool QArith Qround.
From stdpp Require Import base gmap list strings pretty.
Import ListNotations.

Local Open Scope Z_scope.

(** ** JavaScript strings *)

Module JS.

Definition jsstring := list N.

(** An ASCII literal as code units. *)
Definition lit (s : string) : jsstring :=
  List.map Ascii.N_of_ascii (String.list_ascii_of_string s).

Definition LF : N := 10%N.
Definition CR : N := 13%N.

(** [s.length] *)
Definition jslength (s : jsstring) : Z := Z.of_nat (length s).

(** [String(n)] and template interpolation of an integral number. *)
Definition show (z : Z) : jsstring := lit (pretty z).

(** [String.prototype.substring(start, end)]: both indices are clamped to
    [0, length] and swapped when [start > end]. *)
Definition substring (s : jsstring) (start end_ : Z) : jsstring :=
  let len := jslength s in
  let finalStart := Z.min (Z.max start 0) len in
  let finalEnd := Z.min (Z.max end_ 0) len in
  let from := Z.min finalStart finalEnd in
  let to := Z.max finalStart finalEnd in
  take (Z.to_nat (to - from)) (drop (Z.to_nat from) s).

(** WhiteSpace and LineTerminator code units, the ones [trim] strips. *)
Definition is_space (c : N) : bool :=
  ((9 <=? c) && (c <=? 13) || (c =? 32) || (c =? 160) || (c =? 5760)
   || (8192 <=? c) && (c <=? 8202) || (c =? 8232) || (c =? 8233)
   || (c =? 8239) || (c =? 8287) || (c =? 12288) || (c =? 65279))%N.

Fixpoint trim_start (s : jsstring) : jsstring :=
  match s with
  | c :: s' => if is_space c then trim_start s' else s
  | [] => []
  end.

Definition trim_end (s : jsstring) : jsstring := rev (trim_start (rev s)).

(** [String.prototype.trim()] *)
Definition trim (s : jsstring) : jsstring := trim_end (trim_start s).

(** [s.startsWith(p)] at the head of [s]. *)
Fixpoint starts_with (p s : jsstring) : bool :=
  match p, s with
  | [], _ => true
  | _ :: _, [] => false
  | a :: p', b :: s' => (a =? b)%N && starts_with p' s'
  end.

(** [String.prototype.split(sep)] for a non-empty separator: scan left to
    right; at a match close the current piece and jump over the separator.
    [skip] counts the separator's code units still to jump over, [cur] is the
    piece being read. *)
Fixpoint split_go (sep : jsstring) (skip : nat) (cur : jsstring) (s : jsstring)
  : list jsstring :=
  match s with
  | [] => [cur]
  | c :: s' =>
      match skip with
      | S k => split_go sep k cur s'
      | O =>
          if starts_with sep s
          then cur :: split_go sep (length sep - 1) [] s'
          else split_go sep 0 (cur ++ [c]) s'
      end
  end.

Definition split (sep s : jsstring) : list jsstring := split_go sep 0 [] s.

(** Truthiness of a string: non-empty. *)
Definition truthy (s : jsstring) : bool :=
  match s with [] => false | _ :: _ => true end.

(** [String(x)] of a value that is a string or [undefined]. *)
Definition String_ (x : option jsstring) : jsstring :=
  match x with Some s => s | None => lit "undefined" end.

(** [Number(x) || d] for an integral [x]: zero is falsy. *)
Definition num_or (x d : Z) : Z := if x =? 0 then d else x.

Definition eqb (a b : jsstring) : bool := bool_decide (a = b).

End JS.
Import JS.

(** ** The DEVONthink application, as the scripts see it *)

(** What [r.plainText()] does for a record: it throws, returns nothing
    ([null], [undefined]) or returns the extracted text. *)
Inductive Extraction :=
| Throws
| Nothing
| Text (s : jsstring).

Record DTRecord := {
  rec_name : jsstring;
  rec_uuid : jsstring;
  rec_location : jsstring;
  rec_database : jsstring;      (* r.database().name() *)
  rec_score : Q;
  rec_type : jsstring;
  rec_plainText : Extraction;
}.

Record World := {
  dt_search : jsstring → list DTRecord;                      (* dt.search(query) *)
  dt_getRecordWithUuid : jsstring → option DTRecord;         (* null when unknown *)
  dt_children : jsstring → jsstring → option (list DTRecord);
    (* children of (get record at path in database named db); None when the
       database or the path does not resolve and the script errors *)
}.

(** [var pt = ''; try { pt = r.plainText() || ''; } catch (e) {}] *)
Definition plainText_or_empty (r : DTRecord) : jsstring :=
  match rec_plainText r with
  | Text s => s
  | Nothing | Throws => []
  end.

(** ** Data exchanged with the scripts *)

Record SearchResult := {
  sr_name : jsstring;
  sr_uuid : jsstring;
  sr_location : jsstring;
  sr_database : jsstring;
  sr_score : Z;                 (* in hundredths: the number is sr_score / 100 *)
  sr_kind : jsstring;
  sr_excerpt : jsstring;
}.

Record SearchData := {
  sd_total : Z;
  sd_returned : Z;
  sd_results : list SearchResult;
}.

Record ContentPage := {
  cp_name : jsstring;
  cp_uuid : jsstring;
  cp_kind : jsstring;
  cp_content : jsstring;
  cp_offset : Z;
  cp_chunk_length : Z;
  cp_total_chars : Z;
  cp_has_more : bool;
  cp_next_offset : Z;
}.

(** What a script prints. The JXA scripts print [JSON.stringify] of a value and
    the handlers read it back with [JSON.parse]; the embedding keeps the value. *)
Inductive Payload :=
| PText (s : jsstring)
| PSearch (d : SearchData)
| PPage (p : ContentPage)
| PContentMap (m : gmap jsstring jsstring).

Inductive ScriptRun :=
| Returned (out : Payload)
| Raised (msg : jsstring).

Inductive Dialect := JXA | AppleScript.

(** The four script bodies, by their interpolated parameters. *)
Inductive Script :=
| SearchScript (query : jsstring) (dbFilter : option jsstring) (limit excerptLen : Z)
| ChunkScript (uuid : jsstring) (offset chunkSize : Z)
| ListChildrenScript (group_path database : jsstring) (maxDocs : Z)
| BatchScript (uuids : list jsstring) (maxChars : Z).

(** ** What the scripts compute *)

Definition ELLIPSIS : N := 8230%N.

(** [Math.round(r.score() * 100)], with exact arithmetic. *)
Definition round_x100 (q : Q) : Z := Qfloor (q * 100 + (1 # 2))%Q.

(** [if (dbFilter && r.database().name() !== dbFilter) continue;] *)
Definition filtered_out (dbFilter : option jsstring) (r : DTRecord) : bool :=
  match dbFilter with
  | Some d => truthy d && negb (eqb (rec_database r) d)
  | None => false
  end.

Definition make_excerpt (excerptLen : Z) (pt : jsstring) : jsstring :=
  if jslength pt >? excerptLen then substring pt 0 excerptLen ++ [ELLIPSIS] else pt.

Definition search_entry (excerptLen : Z) (r : DTRecord) : SearchResult :=
  let pt := plainText_or_empty r in
  let excerpt := make_excerpt excerptLen pt in
  {| sr_name := rec_name r;
     sr_uuid := rec_uuid r;
     sr_location := rec_location r;
     sr_database := rec_database r;
     sr_score := round_x100 (rec_score r);
     sr_kind := rec_type r;
     sr_excerpt := trim excerpt |}.

(** [for (var i = 0; i < raw.length && out.length < limit; i++)], on the
    records from [raw[i]] on. *)
Fixpoint search_loop (dbFilter : option jsstring) (limit excerptLen : Z)
    (raw : list DTRecord) (out : list SearchResult) : list SearchResult :=
  match raw with
  | [] => out
  | r :: raw' =>
      if Z.of_nat (length out) <? limit then
        if filtered_out dbFilter r
        then search_loop dbFilter limit excerptLen raw' out
        else search_loop dbFilter limit excerptLen raw' (out ++ [search_entry excerptLen r])
      else out
  end.

(** The object the search script serialises. *)
Definition search_data (w : World) (query : jsstring) (dbFilter : option jsstring)
    (limit excerptLen : Z) : SearchData :=
  let raw := dt_search w query in
  let out := search_loop dbFilter limit excerptLen raw [] in
  {| sd_total := Z.of_nat (length raw);
     sd_returned := Z.of_nat (length out);
     sd_results := out |}.

Definition run_search (w : World) (query : jsstring) (dbFilter : option jsstring)
    (limit excerptLen : Z) : ScriptRun :=
  Returned (PSearch (search_data w query dbFilter limit excerptLen)).

(** The object the chunked-read script serialises for a resolved record [r]. *)
Definition page_of (r : DTRecord) (offset chunkSize : Z) : ContentPage :=
  let pt := plainText_or_empty r in
  let total := jslength pt in
  let chunk := substring pt offset (offset + chunkSize) in
  let nextOff := offset + jslength chunk in
  {| cp_name := rec_name r;
     cp_uuid := rec_uuid r;
     cp_kind := rec_type r;
     cp_content := chunk;
     cp_offset := offset;
     cp_chunk_length := jslength chunk;
     cp_total_chars := total;
     cp_has_more := nextOff <? total;
     cp_next_offset := nextOff |}.

Definition run_chunk (w : World) (uuid : jsstring) (offset chunkSize : Z) : ScriptRun :=
  match dt_getRecordWithUuid w uuid with
  | None => Raised (lit "Record not found: " ++ uuid)
  | Some r => Returned (PPage (page_of r offset chunkSize))
  end.

Definition BAR : N := 124%N.

(** [uuid of k & "|||" & name of k & "|||" & kKind & return] *)
Definition nav_line (uuid name kind : jsstring) : jsstring :=
  uuid ++ lit "|||" ++ name ++ lit "|||" ++ kind ++ [CR].

(** [kKind is not "group" and kKind is not "smart group"], on the type names
    DEVONthink reports. *)
Definition is_document (kKind : jsstring) : bool :=
  negb (eqb kKind (lit "group")) && negb (eqb kKind (lit "smart group")).

(** The AppleScript [repeat with k in kids] loop. *)
Fixpoint children_loop (maxDocs : Z) (kids : list DTRecord) (out : jsstring)
    (counter : Z) : jsstring :=
  match kids with
  | [] => out
  | k :: kids' =>
      if counter >=? maxDocs then out
      else
        let kKind := rec_type k in
        if is_document kKind
        then children_loop maxDocs kids'
               (out ++ nav_line (rec_uuid k) (rec_name k) kKind)
               (counter + 1)
        else children_loop maxDocs kids' out counter
  end.

Definition run_list_children (w : World) (group_path database : jsstring)
    (maxDocs : Z) : ScriptRun :=
  match dt_children w group_path database with
  | None => Raised (lit "Can't get children of missing value.")
  | Some kids => Returned (PText (children_loop maxDocs kids [] 0))
  end.

(** [for (var i = 0; i < uuids.length; i++) { ... out[uuids[i]] = ... }] *)
Fixpoint batch_loop (w : World) (maxChars : Z) (uuids : list jsstring)
    (out : gmap jsstring jsstring) : gmap jsstring jsstring :=
  match uuids with
  | [] => out
  | u :: uuids' =>
      let pt := match dt_getRecordWithUuid w u with
                | Some r => plainText_or_empty r
                | None => []
                end in
      batch_loop w maxChars uuids' (<[u := trim (substring pt 0 maxChars)]> out)
  end.

Definition run_batch (w : World) (uuids : list jsstring) (maxChars : Z) : ScriptRun :=
  Returned (PContentMap (batch_loop w maxChars uuids ∅)).

(** A script run by the interpreter of its dialect. *)
Definition run_script (w : World) (d : Dialect) (s : Script) : ScriptRun :=
  match d, s with
  | JXA, SearchScript query dbFilter limit excerptLen =>
      run_search w query dbFilter limit excerptLen
  | JXA, ChunkScript uuid offset chunkSize => run_chunk w uuid offset chunkSize
  | JXA, BatchScript uuids maxChars => run_batch w uuids maxChars
  | AppleScript, ListChildrenScript group_path database maxDocs =>
      run_list_children w group_path database maxDocs
  | _, _ => Raised (lit "syntax error")
  end.

(** ** Errors, state and the monad of the bridge *)

Inductive JsError :=
| CommandFailed (cmd stderr : jsstring)   (* execFileSync: non-zero exit *)
| CommandTimedOut (cmd : jsstring)        (* execFileSync: killed at the timeout *)
| WriteFailed (path : jsstring)           (* writeFileSync *)
| NoSuchFile (path : jsstring)            (* unlinkSync on a missing file *)
| JsonSyntaxError.                        (* JSON.parse *)

(** [err.message], as Node words it. *)
Definition message (e : JsError) : jsstring :=
  match e with
  | CommandFailed cmd stderr => lit "Command failed: " ++ cmd ++ [LF] ++ stderr
  | CommandTimedOut cmd => lit "spawnSync osascript ETIMEDOUT"
  | WriteFailed path => lit "EACCES: permission denied, open '" ++ path ++ lit "'"
  | NoSuchFile path => lit "ENOENT: no such file or directory, unlink '" ++ path ++ lit "'"
  | JsonSyntaxError => lit "Unexpected token in JSON"
  end.

(** One run of [osascript]: interpreter, script path, timeout and the script
    text found at the path. *)
Record Spawn := {
  sp_dialect : Dialect;
  sp_path : jsstring;
  sp_timeout : Z;
  sp_script : option Script;
}.

Record State := {
  fs : gmap jsstring Script;    (* the files, by path, with the script they hold *)
  now : Z;                      (* Date.now() *)
  spawned : list Spawn;         (* processes run so far, oldest first *)
}.

Inductive Outcome :=
| Exit0 (stdout : Payload)
| ExitNonZero (stderr : jsstring)
| TimedOut.

(** What the environment may do to a process besides running the script. *)
Inductive Fault :=
| NoFault
| Crash (stderr : jsstring)     (* e.g. DEVONthink is not running *)
| Hang.                         (* the process outlives its timeout *)

Record Env := {
  tmpdir : jsstring;                                 (* os.tmpdir() *)
  writable : jsstring → bool;                        (* can writeFileSync create the path *)
  world : World;
  fault : nat → Dialect → Z → Script → Fault;        (* by number of earlier spawns *)
}.

Inductive Result (A : Type) :=
| Ok (a : A)
| Throw (e : JsError).
Arguments Ok {A} a.
Arguments Throw {A} e.

Definition M (A : Type) : Type := State → Result A * State.

Global Instance M_ret : MRet M := λ A a st, (Ok a, st).
Global Instance M_bind : MBind M := λ A B f m st,
  match m st with
  | (Ok a, st') => f a st'
  | (Throw e, st') => (Throw e, st')
  end.

Definition throw {A} (e : JsError) : M A := λ st, (Throw e, st).

(** [try { body } catch (err) { handler }] *)
Definition try_catch {A} (body : M A) (handler : JsError → M A) : M A := λ st,
  match body st with
  | (Ok a, st') => (Ok a, st')
  | (Throw e, st') => handler e st'
  end.

(** [try { body } finally { fin }]: [fin] runs on every exit of [body]; a
    failure of [fin] replaces the outcome of [body]. *)
Definition try_finally {A} (body : M A) (fin : M unit) : M A := λ st,
  match body st with
  | (r, st') =>
      match fin st' with
      | (Ok _, st'') => (r, st'')
      | (Throw e, st'') => (Throw e, st'')
      end
  end.

(** ** The Node primitives the runners use *)

Definition Date_now : M Z := λ st, (Ok (now st), st).

(** [path.join(dir, file)] *)
Definition join (dir file : jsstring) : jsstring := dir ++ lit "/" ++ file.

(** [console] output of osascript: the result followed by a line feed. *)
Definition printed (out : Payload) : Payload :=
  match out with
  | PText s => PText (s ++ [LF])
  | _ => out
  end.

(** [stdout.trim()] *)
Definition trim_payload (out : Payload) : Payload :=
  match out with
  | PText s => PText (trim s)
  | _ => out
  end.

Definition command_line (d : Dialect) (path : jsstring) : jsstring :=
  match d with
  | JXA => lit "osascript -l JavaScript " ++ path
  | AppleScript => lit "osascript " ++ path
  end.

Section Bridge.

Context (env : Env).

Definition writeFileSync (path : jsstring) (data : Script) : M unit := λ st,
  if writable env path
  then (Ok tt, {| fs := <[path := data]> (fs st); now := now st; spawned := spawned st |})
  else (Throw (WriteFailed path), st).

Definition unlinkSync (path : jsstring) : M unit := λ st,
  match fs st !! path with
  | Some _ => (Ok tt, {| fs := delete path (fs st); now := now st; spawned := spawned st |})
  | None => (Throw (NoSuchFile path), st)
  end.

(** The process [osascript] on the file at [path]. *)
Definition osascript (n : nat) (d : Dialect) (timeoutMs : Z) (file : option Script)
  : Outcome :=
  match file with
  | None => ExitNonZero (lit "osascript: no such file or directory")
  | Some script =>
      match fault env n d timeoutMs script with
      | Crash stderr => ExitNonZero stderr
      | Hang => TimedOut
      | NoFault =>
          match run_script (world env) d script with
          | Returned out => Exit0 (printed out)
          | Raised msg => ExitNonZero (lit "execution error: Error: " ++ msg)
          end
      end
  end.

(** [execFileSync('osascript', [...flags, path], { encoding, timeout })] *)
Definition execFileSync (d : Dialect) (path : jsstring) (timeoutMs : Z) : M Payload := λ st,
  let file := fs st !! path in
  let st' := {| fs := fs st; now := now st;
                spawned := spawned st ++ [{| sp_dialect := d; sp_path := path;
                                             sp_timeout := timeoutMs; sp_script := file |}] |} in
  match osascript (length (spawned st)) d timeoutMs file with
  | Exit0 stdout => (Ok stdout, st')
  | ExitNonZero stderr => (Throw (CommandFailed (command_line d path) stderr), st')
  | TimedOut => (Throw (CommandTimedOut (command_line d path)), st')
  end.

(** ** Script runners *)

Definition jxa_tmp (t : Z) : jsstring :=
  join (tmpdir env) (lit "dt-jxa-" ++ show t ++ lit ".js").

Definition as_tmp (t : Z) : jsstring :=
  join (tmpdir env) (lit "dt-as-" ++ show t ++ lit ".applescript").

Definition runJXA (script : Script) (timeoutMs : Z) : M Payload :=
  t ← Date_now;
  let tmp := jxa_tmp t in
  try_finally
    (writeFileSync tmp script;;
     out ← execFileSync JXA tmp timeoutMs;
     mret (trim_payload out))
    (try_catch (unlinkSync tmp) (λ _, mret tt)).

Definition runAppleScript (script : Script) (timeoutMs : Z) : M Payload :=
  t ← Date_now;
  let tmp := as_tmp t in
  try_finally
    (writeFileSync tmp script;;
     out ← execFileSync AppleScript tmp timeoutMs;
     mret (trim_payload out))
    (try_catch (unlinkSync tmp) (λ _, mret tt)).

End Bridge.

(** ** Tool requests and responses *)

(** The argument bag of a tool call; [None] is an absent ([undefined]) field. *)
Record Args := {
  query : option jsstring;
  database : option jsstring;
  limit : option Z;
  excerpt_chars : option Z;
  uuid : option jsstring;
  offset : option Z;
  group_path : option jsstring;
  max_chars_per_doc : option Z;
  max_docs : option Z;
}.

Definition no_args : Args :=
  {| query := None; database := None; limit := None; excerpt_chars := None;
     uuid := None; offset := None; group_path := None;
     max_chars_per_doc := None; max_docs := None |}.

Record Request := {
  req_name : jsstring;
  req_arguments : option Args;
}.

Record ContentBlock := {
  block_type : jsstring;
  text : jsstring;
}.

Record Response := {
  content : list ContentBlock;
  isError : bool;
}.

(** [{ content: [{ type: 'text', text }] }] *)
Definition text_response (t : jsstring) : Response :=
  {| content := [{| block_type := lit "text"; text := t |}]; isError := false |}.

(** [{ content: [{ type: 'text', text }], isError: true }] *)
Definition error_response (t : jsstring) : Response :=
  {| content := [{| block_type := lit "text"; text := t |}]; isError := true |}.

Definition DQUOTE : N := 34%N.
Definition EN_DASH : N := 8211%N.
Definition EM_DASH : N := 8212%N.
Definition ARROW : N := 8594%N.
Definition TRIANGLE : N := 9654%N.
Definition CHECK_MARK : N := 10003%N.

(** [JSON.parse] of the output of a script, by the shape the caller reads.
    Raw text is not JSON; a JXA script prints the one shape its caller reads,
    and the other shapes are rejected here. *)
Definition JSON_parse_search (out : Payload) : M SearchData :=
  match out with PSearch d => mret d | _ => throw JsonSyntaxError end.

Definition JSON_parse_page (out : Payload) : M ContentPage :=
  match out with PPage p => mret p | _ => throw JsonSyntaxError end.

Definition JSON_parse_map (out : Payload) : M (gmap jsstring jsstring) :=
  match out with PContentMap m => mret m | _ => throw JsonSyntaxError end.

(** The output of the navigation script, read as the string it is. *)
Definition stdout_text (out : Payload) : M jsstring :=
  match out with PText s => mret s | _ => throw JsonSyntaxError end.

(** ** dt_search_with_excerpts *)

(** A number with at most two decimals, given in hundredths, as JavaScript
    prints it: [91] is 0.91, [90] is 0.9, [100] is 1. *)
Definition show_hundredths (h : Z) : jsstring :=
  let a := Z.abs h in
  (if h <? 0 then lit "-" else [])
  ++ show (a / 100)
  ++ (if a mod 100 =? 0 then []
      else lit "." ++ show (a mod 100 / 10)
           ++ (if a mod 10 =? 0 then [] else show (a mod 10))).

(** [JSON.stringify(database || null)]: [None] is [null]. *)
Definition dbFilter_of (database : option jsstring) : option jsstring :=
  match database with
  | Some d => if truthy d then Some d else None
  | None => None
  end.

Definition search_safeLimit (args : Args) : Z :=
  let limit := default 10 (limit args) in
  Z.min (num_or limit 10) 50.

Definition search_safeExcerpt (args : Args) : Z :=
  let excerpt_chars := default 600 (excerpt_chars args) in
  num_or excerpt_chars 600.

Definition search_script (args : Args) : Script :=
  SearchScript (String_ (query args)) (dbFilter_of (database args))
    (search_safeLimit args) (search_safeExcerpt args).

Definition render_result (r : SearchResult) : jsstring :=
  lit "### " ++ sr_name r ++ [LF]
  ++ lit "- **UUID**: `" ++ sr_uuid r ++ lit "`" ++ [LF]
  ++ lit "- **Location**: " ++ sr_database r ++ lit " " ++ [ARROW] ++ lit " "
     ++ sr_location r ++ [LF]
  ++ lit "- **Type**: " ++ sr_kind r ++ lit " | **Score**: "
     ++ show_hundredths (sr_score r) ++ [LF]
  ++ (if truthy (sr_excerpt r) then [LF] ++ sr_excerpt r ++ [LF] else [])
  ++ [LF] ++ lit "---" ++ [LF; LF].

Definition render_search (data : SearchData) : jsstring :=
  fold_left (λ text r, text ++ render_result r) (sd_results data)
    (lit "Found **" ++ show (sd_total data) ++ lit "** results (showing "
     ++ show (sd_returned data) ++ lit "):" ++ [LF; LF]).

(** [const data = JSON.parse(runJXA(script));] *)
Definition fetch_search (env : Env) (args : Args) : M SearchData :=
  let script := search_script args in
  out ← runJXA env script 30000;
  JSON_parse_search out.

Definition searchWithExcerpts (env : Env) (args : Args) : M Response :=
  data ← fetch_search env args;
  mret (text_response (render_search data)).

(** ** dt_get_content_chunked *)

Definition chunk_safeOffset (args : Args) : Z :=
  let offset := default 0 (offset args) in
  num_or offset 0.

Definition chunk_safeLimit (args : Args) : Z :=
  let limit := default 4000 (limit args) in
  num_or limit 4000.

Definition chunk_script (args : Args) : Script :=
  ChunkScript (String_ (uuid args)) (chunk_safeOffset args) (chunk_safeLimit args).

(** [const d = JSON.parse(runJXA(script));] *)
Definition fetch_page (env : Env) (args : Args) : M ContentPage :=
  let script := chunk_script args in
  out ← runJXA env script 30000;
  JSON_parse_page out.

Definition render_page (d : ContentPage) : jsstring :=
  let range := lit "chars " ++ show (cp_offset d) ++ [EN_DASH]
               ++ show (cp_offset d + cp_chunk_length d)
               ++ lit " of " ++ show (cp_total_chars d) in
  let more := if cp_has_more d
              then lit " | " ++ [TRIANGLE] ++ lit " more available " ++ [EM_DASH]
                   ++ lit " use offset: " ++ show (cp_next_offset d)
              else lit " | " ++ [CHECK_MARK] ++ lit " end of document" in
  let header := lit "**" ++ cp_name d ++ lit "** [" ++ cp_kind d ++ lit "] ("
                ++ range ++ more ++ lit ")" ++ [LF; LF] in
  header ++ cp_content d.

Definition getContentChunked (env : Env) (args : Args) : M Response :=
  d ← fetch_page env args;
  mret (text_response (render_page d)).

(** ** dt_get_group_context *)

Record GroupChild := {
  gc_uuid : option jsstring;
  gc_name : option jsstring;
  gc_kind : option jsstring;
}.

(** [const [uuid, name, kind] = line.split('|||')] with [uuid?.trim()] etc. *)
Definition parse_line (line : jsstring) : GroupChild :=
  let parts := split (lit "|||") line in
  {| gc_uuid := trim <$> parts !! 0%nat;
     gc_name := trim <$> parts !! 1%nat;
     gc_kind := trim <$> parts !! 2%nat |}.

Definition truthy_field (x : option jsstring) : bool :=
  match x with Some s => truthy s | None => false end.

(** [asResult.split('\r').filter(Boolean).map(...).filter(i => i.uuid && i.name)] *)
Definition parseNavigation (asResult : jsstring) : list GroupChild :=
  List.filter (λ i, truthy_field (gc_uuid i) && truthy_field (gc_name i))
    (List.map parse_line (List.filter truthy (split [CR] asResult))).

Definition group_safeMaxChars (args : Args) : Z :=
  let max_chars_per_doc := default 800 (max_chars_per_doc args) in
  num_or max_chars_per_doc 800.

Definition group_safeMaxDocs (args : Args) : Z :=
  let max_docs := default 20 (max_docs args) in
  Z.min (num_or max_docs 20) 50.

Definition list_children_script (args : Args) : Script :=
  ListChildrenScript (String_ (group_path args)) (String_ (database args))
    (group_safeMaxDocs args).

Definition empty_or_not_found (args : Args) : jsstring :=
  lit "Group " ++ [DQUOTE] ++ String_ (group_path args) ++ [DQUOTE] ++ lit " in "
  ++ [DQUOTE] ++ String_ (database args) ++ [DQUOTE] ++ lit " is empty or not found.".

Definition no_documents_found (args : Args) : jsstring :=
  lit "No documents found in " ++ [DQUOTE] ++ String_ (group_path args) ++ [DQUOTE]
  ++ lit ".".

Definition render_item (contentMap : gmap jsstring jsstring) (item : GroupChild)
  : jsstring :=
  let content := default [] (contentMap !! String_ (gc_uuid item)) in
  lit "### " ++ String_ (gc_name item) ++ lit " [" ++ String_ (gc_kind item) ++ lit "]" ++ [LF]
  ++ lit "UUID: `" ++ String_ (gc_uuid item) ++ lit "`" ++ [LF]
  ++ (if truthy content then [LF] ++ content ++ [LF] else [])
  ++ [LF] ++ lit "---" ++ [LF; LF].

Definition render_group (args : Args) (items : list GroupChild)
    (contentMap : gmap jsstring jsstring) : jsstring :=
  fold_left (λ text item, text ++ render_item contentMap item) items
    (lit "**Group**: `" ++ String_ (group_path args) ++ lit "` in **"
     ++ String_ (database args) ++ lit "** " ++ [EM_DASH] ++ lit " "
     ++ show (Z.of_nat (length items)) ++ lit " documents" ++ [LF; LF]).

Definition getGroupContext (env : Env) (args : Args) : M Response :=
  let safeMaxChars := group_safeMaxChars args in
  let asScript := list_children_script args in
  out ← runAppleScript env asScript 30000;
  asResult ← stdout_text out;
  if negb (truthy asResult)
  then mret (text_response (empty_or_not_found args))
  else
    let items := parseNavigation asResult in
    if (length items =? 0)%nat
    then mret (text_response (no_documents_found args))
    else
      let uuids := List.map (λ i, String_ (gc_uuid i)) items in
      let jxaScript := BatchScript uuids safeMaxChars in
      out2 ← runJXA env jxaScript 60000;
      contentMap ← JSON_parse_map out2;
      mret (text_response (render_group args items contentMap)).

(** ** Tool dispatch *)

Definition call_tool (env : Env) (req : Request) : M Response :=
  let name := req_name req in
  let args := default no_args (req_arguments req) in
  try_catch
    (if eqb name (lit "dt_search_with_excerpts") then searchWithExcerpts env args
     else if eqb name (lit "dt_get_content_chunked") then getContentChunked env args
     else if eqb name (lit "dt_get_group_context") then getGroupContext env args
     else mret (error_response (lit "Unknown tool: " ++ name)))
    (λ err, mret (error_response (lit "Error: " ++ message err))).


(** * Vocabulary of the statements *)

(** ** One invocation, as a whole *)

Definition spawn_of (d : Dialect) (tmp : jsstring) (timeoutMs : Z) (script : Script)
  : Spawn :=
  {| sp_dialect := d; sp_path := tmp; sp_timeout := timeoutMs; sp_script := Some script |}.

(** The value [execFileSync(...).trim()] evaluates to, by process outcome. *)
Definition result_of (d : Dialect) (tmp : jsstring) (o : Outcome) : Result Payload :=
  match o with
  | Exit0 stdout => Ok (trim_payload stdout)
  | ExitNonZero stderr => Throw (CommandFailed (command_line d tmp) stderr)
  | TimedOut => Throw (CommandTimedOut (command_line d tmp))
  end.

(** One run of a script through a temporary file [tmp], start to end. *)
Definition invocation (env : Env) (d : Dialect) (tmp : jsstring) (script : Script)
    (timeoutMs : Z) (st : State) : Result Payload * State :=
  if writable env tmp
  then (result_of d tmp (osascript env (length (spawned st)) d timeoutMs (Some script)),
        {| fs := delete tmp (fs st); now := now st;
           spawned := spawned st ++ [spawn_of d tmp timeoutMs script] |})
  else (Throw (WriteFailed tmp),
        {| fs := delete tmp (fs st); now := now st; spawned := spawned st |}).

(** Every write succeeds and no process crashes or hangs. *)
Definition healthy (env : Env) : Prop :=
  (∀ p, writable env p = true) ∧ (∀ n d t s, fault env n d t s = NoFault).

Definition after_run (d : Dialect) (tmp : jsstring) (timeoutMs : Z) (script : Script)
    (st : State) : State :=
  {| fs := delete tmp (fs st); now := now st;
     spawned := spawned st ++ [spawn_of d tmp timeoutMs script] |}.

Definition script_result (w : World) (d : Dialect) (tmp : jsstring) (script : Script)
  : Result Payload :=
  match run_script w d script with
  | Returned out => Ok (trim_payload (printed out))
  | Raised msg =>
      Throw (CommandFailed (command_line d tmp) (lit "execution error: Error: " ++ msg))
  end.


(** ** Reading a document end to end *)




(** ** A small database, to run the handlers on *)

Definition doc_one : DTRecord :=
  {| rec_name := lit "Doc One"; rec_uuid := lit "U1"; rec_location := lit "/Projects/";
     rec_database := lit "Active_Work"; rec_score := (91 # 100)%Q;
     rec_type := lit "markdown";
     rec_plainText := Text (lit "ONVIF profile notes, first draft") |}.

Definition doc_two : DTRecord :=
  {| rec_name := lit "Doc,Two"; rec_uuid := lit "U2"; rec_location := lit "/Inbox/";
     rec_database := lit "Inbox"; rec_score := (77 # 100)%Q;
     rec_type := lit "PDF document";
     rec_plainText := Throws |}.

(** A document whose name is a single space. *)
Definition doc_blank : DTRecord :=
  {| rec_name := lit " "; rec_uuid := lit "U3"; rec_location := lit "/Projects/";
     rec_database := lit "Active_Work"; rec_score := 0%Q;
     rec_type := lit "markdown";
     rec_plainText := Nothing |}.

(** A sub-group. *)
Definition sub_group : DTRecord :=
  {| rec_name := lit "Archive"; rec_uuid := lit "G1"; rec_location := lit "/Folders/";
     rec_database := lit "Active_Work"; rec_score := 0%Q;
     rec_type := lit "group";
     rec_plainText := Nothing |}.

Definition sample_world : World :=
  {| dt_search := λ _, [doc_one; doc_two];
     dt_getRecordWithUuid := λ u,
       if eqb u (lit "U1") then Some doc_one
       else if eqb u (lit "U2") then Some doc_two
       else if eqb u (lit "U3") then Some doc_blank
       else None;
     dt_children := λ path db,
       if eqb db (lit "Active_Work") then
         if eqb path (lit "/Projects") then Some [doc_one; doc_two]
         else if eqb path (lit "/Blank") then Some [doc_blank]
         else if eqb path (lit "/Folders") then Some [sub_group]
         else None
       else None |}.

Definition sample_env : Env :=
  {| tmpdir := lit "/tmp"; writable := λ _, true; world := sample_world;
     fault := λ _ _ _ _, NoFault |}.

(** The same database behind an [osascript] that hangs. *)
Definition hanging_env : Env :=
  {| tmpdir := lit "/tmp"; writable := λ _, true; world := sample_world;
     fault := λ _ _ _ _, Hang |}.

Definition sample_state : State :=
  {| fs := ∅; now := 1700000000000; spawned := [] |}.

Definition chunk_args (u : jsstring) (off lim : Z) : Args :=
  {| query := None; database := None; limit := Some lim; excerpt_chars := None;
     uuid := Some u; offset := Some off; group_path := None;
     max_chars_per_doc := None; max_docs := None |}.

Definition search_args (q : jsstring) (db : option jsstring) (lim : option Z) : Args :=
  {| query := Some q; database := db; limit := lim; excerpt_chars := None;
     uuid := None; offset := None; group_path := None;
     max_chars_per_doc := None; max_docs := None |}.

Definition group_args (path db : jsstring) (docs : option Z) : Args :=
  {| query := None; database := Some db; limit := None; excerpt_chars := None;
     uuid := None; offset := None; group_path := Some path;
     max_chars_per_doc := None; max_docs := docs |}.

(** [r.plainText()] threw, or gave nothing to read. *)
Definition extraction_failed (r : DTRecord) : Prop :=
  rec_plainText r = Throws ∨ rec_plainText r = Nothing ∨ rec_plainText r = Text [].

Definition tool_request (name : string) (args : Args) : Request :=
  {| req_name := lit name; req_arguments := Some args |}.

(** The line the navigation script writes for a document. *)
Definition line_of_record (k : DTRecord) : jsstring :=
  nav_line (rec_uuid k) (rec_name k) (rec_type k).

(** The entry a well-formed line stands for. *)
Definition child_of (rec : jsstring * jsstring * jsstring) : GroupChild :=
  let '(u, n, k) := rec in
  {| gc_uuid := Some (trim u); gc_name := Some (trim n); gc_kind := Some (trim k) |}.

Definition line_of (rec : jsstring * jsstring * jsstring) : jsstring :=
  let '(u, n, k) := rec in nav_line u n k.

(** No field holds the delimiter's code unit or the record terminator. *)
Definition clean (rec : jsstring * jsstring * jsstring) : Prop :=
  let '(u, n, k) := rec in
  Forall (λ f, (BAR ∉ f) ∧ (CR ∉ f)) [u; n; k].

Definition usable (rec : jsstring * jsstring * jsstring) : bool :=
  let '(u, n, k) := rec in truthy (trim u) && truthy (trim n).

Definition spec_example_output : jsstring :=
  lit "U1|||Doc One|||markdown" ++ [CR] ++ lit "U2|||Doc,Two|||PDF document" ++ [CR].

(** The three tools, by name. *)
Definition handlers : list (string * (Env → Args → M Response)) :=
  [ ("dt_search_with_excerpts", searchWithExcerpts);
    ("dt_get_content_chunked", getContentChunked);
    ("dt_get_group_context", getGroupContext) ]%string.

(** [err] is reported as the one block of an error-flagged response. *)
Definition reports (resp : Response) (err : JsError) : Prop :=
  content resp = [{| block_type := lit "text"; text := lit "Error: " ++ message err |}]
  ∧ isError resp = true.



(** The fields a parsed entry has. *)
Definition fields_of (c : GroupChild) : list jsstring :=
  omap id [gc_uuid c; gc_name c; gc_kind c].

(** The matches the database filter of a request lets through, in the order
    of the global search. *)
Definition passing_matches (w : World) (args : Args) : list DTRecord :=
  List.filter (λ r, negb (filtered_out (dbFilter_of (database args)) r))
    (dt_search w (String_ (query args))).


Definition default_args (u : jsstring) : Args :=
  {| query := None; database := None; limit := None; excerpt_chars := None;
     uuid := Some u; offset := None; group_path := None;
     max_chars_per_doc := None; max_docs := None |}.

(** The text the batch script extracts for an identity: empty when the
    identity does not resolve or the extraction fails. *)
Definition record_text (w : World) (u : jsstring) : jsstring :=
  match dt_getRecordWithUuid w u with
  | Some r => plainText_or_empty r
  | None => []
  end.


(** ** The tool list *)

Record ToolProperty := {
  prop_name : string;
  prop_type : string;
  prop_description : string;
}.

(** An entry of [TOOLS]: name, description and the input schema (an object
    schema, given by its properties and its required property names). *)
Record Tool := {
  tool_name : string;
  tool_description : string;
  tool_properties : list ToolProperty;
  tool_required : list string;
}.

Local Open Scope string_scope.

(** The double quote, for the descriptions that hold one. *)
Definition dq : string := String (Ascii.ascii_of_nat 34) EmptyString.

Definition TOOLS : list Tool :=
  [ {| tool_name := "dt_search_with_excerpts";
       tool_description :=
         ("Search DEVONthink and return results WITH plain-text excerpts in a "
          ++ "single call. Works for all indexed formats: Markdown, PDF, Email "
          ++ "(.eml), Excel, Word. Prefer this over the stock devonthink search "
          ++ "when you need to read content immediately without a second "
          ++ "round-trip.");
       tool_properties :=
         [ {| prop_name := "query"; prop_type := "string";
            prop_description := "Search query. Supports DEVONthink operators: name:, tag:, kind:, etc." |};
         {| prop_name := "database"; prop_type := "string";
            prop_description := "Restrict to this database name (optional). Searches all databases if omitted." |};
         {| prop_name := "limit"; prop_type := "number";
            prop_description := "Max results to return (default 10, max 50)." |};
         {| prop_name := "excerpt_chars"; prop_type := "number";
            prop_description := "Plain-text characters to include per result (default 600)." |} ];
       tool_required := ["query"] |};
    {| tool_name := "dt_get_content_chunked";
       tool_description :=
         ("Get the plain-text content of a DEVONthink record in pages. Use "
          ++ "offset + limit to walk through large PDFs, emails, or long notes "
          ++ "without filling the context window. The response includes "
          ++ "total_chars and next_offset so you know whether to keep reading.");
       tool_properties :=
         [ {| prop_name := "uuid"; prop_type := "string";
            prop_description := "Record UUID (from dt_search_with_excerpts or the stock search tool)." |};
         {| prop_name := "offset"; prop_type := "number";
            prop_description := "Character position to start reading from (default 0)." |};
         {| prop_name := "limit"; prop_type := "number";
            prop_description := "Max characters to return in this chunk (default 4000)." |} ];
       tool_required := ["uuid"] |};
    {| tool_name := "dt_get_group_context";
       tool_description :=
         ("Load a plain-text snapshot of every document inside a DEVONthink "
          ++ "group/folder. Ideal for priming project context before starting a "
          ++ "task (e.g. group_path="
          ++ dq
          ++ "/ONVIF_Offering/Longse"
          ++ dq
          ++ ", database="
          ++ dq
          ++ "Active_Work"
          ++ dq
          ++ "). Returns the first max_chars_per_doc characters of each file plus "
          ++ "its UUID so you can follow up with dt_get_content_chunked for "
          ++ "deeper reads.");
       tool_properties :=
         [ {| prop_name := "group_path"; prop_type := "string";
            prop_description := "Database-relative path of the group, e.g. /ONVIF_Offering/Longse" |};
         {| prop_name := "database"; prop_type := "string";
            prop_description := "Database name, e.g. Active_Work" |};
         {| prop_name := "max_chars_per_doc"; prop_type := "number";
            prop_description := "Max plain-text characters to include per document (default 800)." |};
         {| prop_name := "max_docs"; prop_type := "number";
            prop_description := "Max documents to include (default 20, direct children only, no sub-groups)." |} ];
       tool_required := ["group_path"; "database"] |} ].

Local Close Scope string_scope.

(** The handler of [ListToolsRequestSchema]: [{ tools: TOOLS }]. *)
Definition list_tools : list Tool := TOOLS.

(** The names the server advertises, as request names. *)
Definition listed_names : list jsstring := List.map (λ t, lit (tool_name t)) list_tools.

(** The [catch] clause of the dispatch. *)
Definition catch_all (err : JsError) : M Response :=
  mret (error_response (lit "Error: " ++ message err)).

(** A response that is a single block of type text. *)
Definition one_text_block (resp : Response) : Prop :=
  ∃ t, content resp = [{| block_type := lit "text"; text := t |}].



(** * Properties *)

(** ** JavaScript primitives on examples *)

Example split_cr :
  split [CR] (lit "a" ++ [CR] ++ lit "b" ++ [CR]) = [lit "a"; lit "b"; []].
Proof. reflexivity. Qed.

Example split_bars :
  split (lit "|||") (lit "U2|||Doc,Two|||PDF document")
  = [lit "U2"; lit "Doc,Two"; lit "PDF document"].
Proof. reflexivity. Qed.

Example split_bars4 :
  split (lit "|||") (lit "a||||b") = [lit "a"; lit "|b"].
Proof. reflexivity. Qed.

Example trim_ex : trim (lit "  a b " ++ [CR; LF]) = lit "a b".
Proof. reflexivity. Qed.

Example substring_swap : substring (lit "abcdef") 3 1 = lit "bc".
Proof. reflexivity. Qed.

Example show_ex : show (-42) = lit "-42" /\ show 0 = lit "0" /\ show 4000 = lit "4000".
Proof. repeat split; vm_compute; reflexivity. Qed.


(** ** The runners: what one invocation does to the state *)

Ltac runner_steps :=
  intros env script timeoutMs [fs0 now0 sp0];
  cbv [runJXA runAppleScript invocation try_finally try_catch mbind mret M_bind M_ret
       Date_now writeFileSync unlinkSync execFileSync result_of spawn_of];
  cbn [fs now spawned];
  destruct (writable env _) eqn:Hw; cbn [fs now spawned];
  [ rewrite lookup_insert_eq;
    destruct (osascript _ _ _ _ _); cbn [fs now spawned];
    rewrite lookup_insert_eq, delete_insert_eq; reflexivity
  | destruct (fs0 !! _) eqn:Hf; cbn [fs now spawned];
    [ reflexivity | rewrite delete_id by assumption; reflexivity ] ].

Lemma runJXA_invocation env script timeoutMs st :
  runJXA env script timeoutMs st
  = invocation env JXA (jxa_tmp env (now st)) script timeoutMs st.
Proof. revert env script timeoutMs st. runner_steps. Qed.

Lemma runAppleScript_invocation env script timeoutMs st :
  runAppleScript env script timeoutMs st
  = invocation env AppleScript (as_tmp env (now st)) script timeoutMs st.
Proof. revert env script timeoutMs st. runner_steps. Qed.

(** ** Temporary script names *)

Lemma lit_inj (a b : string) : lit a = lit b → a = b.
Proof.
  unfold lit. intros H.
  assert (String.list_ascii_of_string a = String.list_ascii_of_string b) as Hl.
  { revert H. generalize (String.list_ascii_of_string a) (String.list_ascii_of_string b).
    induction l as [|x l IH]; intros [|y l']; simpl; intros H; try discriminate; auto.
    injection H as Hxy Hll. f_equal; auto.
    rewrite <- (Ascii.ascii_N_embedding x), <- (Ascii.ascii_N_embedding y).
    now rewrite Hxy. }
  rewrite <- (String.string_of_list_ascii_of_string a),
          <- (String.string_of_list_ascii_of_string b).
  now rewrite Hl.
Qed.

Lemma show_inj (x y : Z) : show x = show y → x = y.
Proof. unfold show. intros H. apply lit_inj in H. now apply (inj pretty) in H. Qed.

Lemma jxa_tmp_inj env t1 t2 : jxa_tmp env t1 = jxa_tmp env t2 → t1 = t2.
Proof.
  unfold jxa_tmp, join. intros H.
  do 3 apply app_inv_head in H. apply app_inv_tail in H. now apply show_inj.
Qed.

Lemma as_tmp_inj env t1 t2 : as_tmp env t1 = as_tmp env t2 → t1 = t2.
Proof.
  unfold as_tmp, join. intros H.
  do 3 apply app_inv_head in H. apply app_inv_tail in H. now apply show_inj.
Qed.

(** ** Every invocation removes its temporary script *)

Lemma invocation_fs env d tmp script timeoutMs st :
  fs (invocation env d tmp script timeoutMs st).2 = delete tmp (fs st).
Proof. unfold invocation. destruct (writable env tmp); reflexivity. Qed.

Lemma invocation_spawned env d tmp script timeoutMs st :
  ∃ new, spawned (invocation env d tmp script timeoutMs st).2 = spawned st ++ new
         ∧ Forall (λ sp, sp = spawn_of d tmp timeoutMs script) new.
Proof.
  unfold invocation. destruct (writable env tmp); simpl.
  - eexists; split; [reflexivity|]. repeat constructor.
  - exists []. split; [now rewrite app_nil_r | constructor].
Qed.

Lemma invocation_result env d tmp script timeoutMs st :
  (invocation env d tmp script timeoutMs st).1
  = if writable env tmp
    then result_of d tmp (osascript env (length (spawned st)) d timeoutMs (Some script))
    else Throw (WriteFailed tmp).
Proof. unfold invocation. destruct (writable env tmp); reflexivity. Qed.

(** C8. Either runner names its temporary file after the clock reading
    ([Date.now()]; different readings give different names), every process it
    spawns runs the file at that name holding exactly the script body, and when
    the runner is left, whether with the trimmed output (exit 0) or with a
    thrown failure (non-zero exit, timeout, or the write itself failing), the
    file system is the initial one without that file. *)
Theorem temp_script_removed_on_every_exit
    (env : Env) (script : Script) (timeoutMs : Z) (st : State) :
  (let tmp := jxa_tmp env (now st) in
   let run := runJXA env script timeoutMs st in
   fs run.2 = delete tmp (fs st) ∧ fs run.2 !! tmp = None
   ∧ (∃ new, spawned run.2 = spawned st ++ new
             ∧ Forall (λ sp, sp = spawn_of JXA tmp timeoutMs script) new)
   ∧ run.1 = (if writable env tmp
              then result_of JXA tmp
                     (osascript env (length (spawned st)) JXA timeoutMs (Some script))
              else Throw (WriteFailed tmp))
   ∧ ∀ t, jxa_tmp env t = tmp → t = now st)
  ∧
  (let tmp := as_tmp env (now st) in
   let run := runAppleScript env script timeoutMs st in
   fs run.2 = delete tmp (fs st) ∧ fs run.2 !! tmp = None
   ∧ (∃ new, spawned run.2 = spawned st ++ new
             ∧ Forall (λ sp, sp = spawn_of AppleScript tmp timeoutMs script) new)
   ∧ run.1 = (if writable env tmp
              then result_of AppleScript tmp
                     (osascript env (length (spawned st)) AppleScript timeoutMs (Some script))
              else Throw (WriteFailed tmp))
   ∧ ∀ t, as_tmp env t = tmp → t = now st).
Proof.
  split; cbv zeta.
  - rewrite runJXA_invocation. rewrite invocation_fs.
    split; [reflexivity|]. split; [apply lookup_delete_eq|].
    split; [apply invocation_spawned|]. split; [apply invocation_result|].
    intros t Ht. exact (jxa_tmp_inj _ _ _ Ht).
  - rewrite runAppleScript_invocation. rewrite invocation_fs.
    split; [reflexivity|]. split; [apply lookup_delete_eq|].
    split; [apply invocation_spawned|]. split; [apply invocation_result|].
    intros t Ht. exact (as_tmp_inj _ _ _ Ht).
Qed.

Lemma temp_script_removed_on_every_exit_witness :
  fs (runJXA hanging_env (ChunkScript (lit "U1") 0 4000) 30000 sample_state).2
    !! lit "/tmp/dt-jxa-1700000000000.js" = None
  ∧ (runJXA hanging_env (ChunkScript (lit "U1") 0 4000) 30000 sample_state).1
    = Throw (CommandTimedOut (lit "osascript -l JavaScript /tmp/dt-jxa-1700000000000.js"))
  ∧ List.map sp_script
      (spawned (runJXA hanging_env (ChunkScript (lit "U1") 0 4000) 30000 sample_state).2)
    = [Some (ChunkScript (lit "U1") 0 4000)]
  ∧ 1700000000000 = now sample_state.
Proof.
  destruct (temp_script_removed_on_every_exit hanging_env (ChunkScript (lit "U1") 0 4000)
              30000 sample_state) as [(_ & Hgone & _ & _ & Hname) _].
  split; [exact Hgone|]. split; [reflexivity|]. split; [reflexivity|].
  apply Hname. reflexivity.
Defined.

(** The file is removed as well when the process exits with an error, and when
    it succeeds. *)
Example temp_script_removed_after_error :
  runJXA sample_env (ChunkScript (lit "U9") 0 4000) 30000 sample_state
  = (Throw (CommandFailed (lit "osascript -l JavaScript /tmp/dt-jxa-1700000000000.js")
              (lit "execution error: Error: Record not found: U9")),
     {| fs := ∅; now := 1700000000000;
        spawned := [spawn_of JXA (lit "/tmp/dt-jxa-1700000000000.js") 30000
                      (ChunkScript (lit "U9") 0 4000)] |}).
Proof. vm_compute. reflexivity. Qed.

Example temp_script_removed_after_success :
  (runAppleScript sample_env
     (ListChildrenScript (lit "/Projects") (lit "Active_Work") 20) 30000 sample_state)
  = (Ok (PText (lit "U1|||Doc One|||markdown" ++ [CR] ++ lit "U2|||Doc,Two|||PDF document")),
     {| fs := ∅; now := 1700000000000;
        spawned := [spawn_of AppleScript (lit "/tmp/dt-as-1700000000000.applescript") 30000
                      (ListChildrenScript (lit "/Projects") (lit "Active_Work") 20)] |}).
Proof. vm_compute. reflexivity. Qed.

(** ** Runs in which the processes are left alone *)

Lemma invocation_healthy env d tmp script timeoutMs st :
  healthy env →
  invocation env d tmp script timeoutMs st
  = (script_result (world env) d tmp script, after_run d tmp timeoutMs script st).
Proof.
  intros [Hw Hf]. unfold invocation, osascript, script_result, after_run.
  rewrite Hw, Hf. destruct (run_script _ _ _); reflexivity.
Qed.

Lemma runJXA_healthy env script timeoutMs st :
  healthy env →
  runJXA env script timeoutMs st
  = (script_result (world env) JXA (jxa_tmp env (now st)) script,
     after_run JXA (jxa_tmp env (now st)) timeoutMs script st).
Proof. intros H. rewrite runJXA_invocation. now apply invocation_healthy. Qed.

Lemma runAppleScript_healthy env script timeoutMs st :
  healthy env →
  runAppleScript env script timeoutMs st
  = (script_result (world env) AppleScript (as_tmp env (now st)) script,
     after_run AppleScript (as_tmp env (now st)) timeoutMs script st).
Proof. intros H. rewrite runAppleScript_invocation. now apply invocation_healthy. Qed.

(** ** Pagination *)

Lemma jslength_nonneg (s : jsstring) : 0 ≤ jslength s.
Proof. unfold jslength. lia. Qed.

(** Inside the text and with a positive size, [substring] is the plain slice. *)
Lemma substring_slice (s : jsstring) (off lim : Z) :
  0 ≤ off ≤ jslength s → 0 < lim →
  substring s off (off + lim)
  = take (Z.to_nat (Z.min lim (jslength s - off))) (drop (Z.to_nat off) s).
Proof.
  intros Hoff Hlim. unfold substring.
  replace (Z.min (Z.max off 0) (jslength s)) with off by lia.
  replace (Z.min off (Z.min (Z.max (off + lim) 0) (jslength s))) with off by lia.
  f_equal. lia.
Qed.

Lemma substring_slice_length (s : jsstring) (off lim : Z) :
  0 ≤ off ≤ jslength s → 0 < lim →
  jslength (substring s off (off + lim)) = Z.min lim (jslength s - off).
Proof.
  intros Hoff Hlim. rewrite substring_slice by assumption.
  unfold jslength in *. rewrite length_take, length_drop. lia.
Qed.

Lemma num_or_self (x : Z) : num_or x 0 = x.
Proof. unfold num_or. destruct (Z.eqb_spec x 0); congruence. Qed.


(** A runner that returns has run the script undisturbed. *)
Lemma invocation_Ok env d tmp script timeoutMs st out st' :
  invocation env d tmp script timeoutMs st = (Ok out, st') →
  ∃ raw, run_script (world env) d script = Returned raw
         ∧ out = trim_payload (printed raw)
         ∧ st' = after_run d tmp timeoutMs script st.
Proof.
  unfold invocation, osascript, result_of, after_run.
  destruct (writable env tmp); [|discriminate].
  destruct (fault env _ _ _ _); try discriminate.
  destruct (run_script _ _ _); [|discriminate].
  intros [= <- <-]. eauto.
Qed.

(** The page a call reads, when it reads one, and that it does when nothing
    disturbs the process. *)
Lemma fetch_page_Ok env args st page st' :
  fetch_page env args st = (Ok page, st') →
  ∃ r, dt_getRecordWithUuid (world env) (String_ (uuid args)) = Some r
       ∧ page = page_of r (chunk_safeOffset args) (chunk_safeLimit args)
       ∧ st' = after_run JXA (jxa_tmp env (now st)) 30000 (chunk_script args) st.
Proof.
  unfold fetch_page, mbind, M_bind. rewrite runJXA_invocation.
  destruct (invocation _ _ _ _ _ _) as [[out|e] st1] eqn:Hinv; [|discriminate].
  apply invocation_Ok in Hinv as (raw & Hrun & -> & ->).
  unfold chunk_script in Hrun. cbn [run_script] in Hrun. unfold run_chunk in Hrun.
  destruct (dt_getRecordWithUuid _ _) as [r|]; [|discriminate].
  injection Hrun as <-. cbn. intros [= <- <-]. eauto.
Qed.

Lemma fetch_page_resolved env args st r :
  healthy env →
  dt_getRecordWithUuid (world env) (String_ (uuid args)) = Some r →
  fetch_page env args st
  = (Ok (page_of r (chunk_safeOffset args) (chunk_safeLimit args)),
     after_run JXA (jxa_tmp env (now st)) 30000 (chunk_script args) st).
Proof.
  intros Hh Hr. unfold fetch_page, mbind, M_bind.
  rewrite (runJXA_healthy _ _ _ _ Hh).
  unfold script_result, chunk_script. cbn [run_script]. unfold run_chunk.
  rewrite Hr. reflexivity.
Qed.

Lemma getContentChunked_resolved env args st r :
  healthy env →
  dt_getRecordWithUuid (world env) (String_ (uuid args)) = Some r →
  getContentChunked env args st
  = (Ok (text_response (render_page (page_of r (chunk_safeOffset args) (chunk_safeLimit args)))),
     after_run JXA (jxa_tmp env (now st)) 30000 (chunk_script args) st).
Proof.
  intros Hh Hr. unfold getContentChunked, mbind, M_bind.
  rewrite (fetch_page_resolved _ _ _ _ Hh Hr). reflexivity.
Qed.

Lemma page_of_inside (r : DTRecord) (off lim : Z) :
  let text := plainText_or_empty r in
  let k := Z.min lim (jslength text - off) in
  0 ≤ off ≤ jslength text → 0 < lim →
  cp_offset (page_of r off lim) = off
  ∧ cp_content (page_of r off lim) = take (Z.to_nat k) (drop (Z.to_nat off) text)
  ∧ jslength (cp_content (page_of r off lim)) = k
  ∧ cp_chunk_length (page_of r off lim) = k
  ∧ cp_total_chars (page_of r off lim) = jslength text
  ∧ cp_next_offset (page_of r off lim) = off + k
  ∧ cp_has_more (page_of r off lim) = (off + k <? jslength text).
Proof.
  intros text k Hoff Hlim. unfold page_of.
  cbn [cp_offset cp_content cp_chunk_length cp_total_chars cp_next_offset cp_has_more].
  fold text. rewrite (substring_slice_length text off lim Hoff Hlim).
  rewrite (substring_slice text off lim Hoff Hlim). auto 10.
Qed.


(** ** Walking a document by [next_offset] *)



Lemma sample_env_healthy : healthy sample_env.
Proof. split; intros; reflexivity. Qed.



(** ** A record without extractable text *)

Lemma extraction_failed_empty (r : DTRecord) :
  extraction_failed r → plainText_or_empty r = [].
Proof. unfold plainText_or_empty. intros [-> | [-> | ->]]; reflexivity. Qed.

Lemma substring_empty (a b : Z) : substring [] a b = [].
Proof. unfold substring. now rewrite drop_nil, take_nil. Qed.

Lemma call_tool_chunked env args st :
  call_tool env (tool_request "dt_get_content_chunked" args) st
  = try_catch (getContentChunked env args)
      (λ err, mret (error_response (lit "Error: " ++ message err))) st.
Proof. reflexivity. Qed.

(** C10, as amended. On a record that resolves but whose text extraction
    throws or yields nothing, a call whose [offset] is omitted or not negative
    and which no process failure disturbs does not fail: the page it reads has
    empty content, [total_chars = 0], [chunk_length = 0] and [has_more =
    false], and the tool answers with the rendered page, not with an error
    block. *)
Theorem failed_extraction_gives_empty_page
    (env : Env) (args : Args) (st : State) (r : DTRecord) :
  healthy env →
  dt_getRecordWithUuid (world env) (String_ (uuid args)) = Some r →
  extraction_failed r →
  0 ≤ default 0 (offset args) →
  ∃ page st',
    fetch_page env args st = (Ok page, st')
    ∧ cp_content page = []
    ∧ cp_total_chars page = 0
    ∧ cp_chunk_length page = 0
    ∧ cp_has_more page = false
    ∧ call_tool env (tool_request "dt_get_content_chunked" args) st
      = (Ok (text_response (render_page page)), st').
Proof.
  intros Hh Hr Hfail Hoff.
  eexists _, _. split; [apply (fetch_page_resolved _ _ _ _ Hh Hr)|].
  unfold page_of.
  cbn [cp_content cp_total_chars cp_chunk_length cp_has_more].
  rewrite (extraction_failed_empty r Hfail), substring_empty.
  repeat split.
  - apply Z.ltb_ge. change (jslength []) with 0.
    unfold chunk_safeOffset. rewrite num_or_self. lia.
  - rewrite call_tool_chunked. unfold try_catch.
    rewrite (getContentChunked_resolved _ _ _ _ Hh Hr).
    unfold page_of. rewrite (extraction_failed_empty r Hfail), substring_empty.
    reflexivity.
Qed.

Lemma failed_extraction_gives_empty_page_witness :
  ∃ page st',
    fetch_page sample_env (chunk_args (lit "U2") 0 4000) sample_state = (Ok page, st')
    ∧ cp_content page = []
    ∧ cp_total_chars page = 0
    ∧ cp_chunk_length page = 0
    ∧ cp_has_more page = false
    ∧ call_tool sample_env
        (tool_request "dt_get_content_chunked" (chunk_args (lit "U2") 0 4000)) sample_state
      = (Ok (text_response (render_page page)), st').
Proof.
  apply (failed_extraction_gives_empty_page sample_env (chunk_args (lit "U2") 0 4000)
           sample_state doc_two).
  - exact sample_env_healthy.
  - reflexivity.
  - left. reflexivity.
  - simpl. lia.
Defined.

(** At [offset = -1] the page of a record whose extraction throws says
    [has_more = true] (and [next_offset = -1]). *)
Lemma negative_offset_has_more :
  dt_getRecordWithUuid (world sample_env) (lit "U2") = Some doc_two
  ∧ extraction_failed doc_two
  ∧ ∃ page st',
      fetch_page sample_env (chunk_args (lit "U2") (-1) 4000) sample_state = (Ok page, st')
      ∧ cp_content page = []
      ∧ cp_has_more page = true
      ∧ cp_next_offset page = -1
      ∧ ¬ (cp_has_more page = false).
Proof.
  split; [reflexivity|]. split; [left; reflexivity|].
  eexists _, _. split; [vm_compute; reflexivity|].
  repeat split. cbn. discriminate.
Qed.

(** ** Search: the loop in closed form *)

(** The loop keeps, in order, the first [limit - out.length] records that the
    database filter lets through. *)
Lemma search_loop_closed dbFilter limit excerptLen raw out :
  search_loop dbFilter limit excerptLen raw out
  = out ++ List.map (search_entry excerptLen)
             (take (Z.to_nat limit - length out)
                (List.filter (λ r, negb (filtered_out dbFilter r)) raw)).
Proof.
  revert out. induction raw as [|r raw IH]; intros out; cbn [search_loop List.filter].
  - now rewrite take_nil, app_nil_r.
  - destruct (Z.ltb_spec (Z.of_nat (length out)) limit) as [Hlt|Hge].
    + destruct (filtered_out dbFilter r); cbn [negb].
      * apply IH.
      * rewrite IH, length_app. cbn [length].
        replace (Z.to_nat limit - length out)%nat
          with (S (Z.to_nat limit - (length out + 1)))%nat by lia.
        cbn [take List.map]. now rewrite <- app_assoc.
    + replace (Z.to_nat limit - length out)%nat with 0%nat by lia.
      now rewrite take_0, app_nil_r.
Qed.

Lemma search_results_closed w query dbFilter limit excerptLen :
  sd_results (search_data w query dbFilter limit excerptLen)
  = List.map (search_entry excerptLen)
      (take (Z.to_nat limit)
         (List.filter (λ r, negb (filtered_out dbFilter r)) (dt_search w query))).
Proof.
  unfold search_data. cbn [sd_results]. rewrite search_loop_closed.
  cbn [length app]. now rewrite Nat.sub_0_r.
Qed.

Lemma fetch_search_Ok env args st data st' :
  fetch_search env args st = (Ok data, st') →
  data = search_data (world env) (String_ (query args)) (dbFilter_of (database args))
           (search_safeLimit args) (search_safeExcerpt args)
  ∧ st' = after_run JXA (jxa_tmp env (now st)) 30000 (search_script args) st.
Proof.
  unfold fetch_search, mbind, M_bind. rewrite runJXA_invocation.
  destruct (invocation _ _ _ _ _ _) as [[out|e] st1] eqn:Hinv; [|discriminate].
  apply invocation_Ok in Hinv as (raw & Hrun & -> & ->).
  unfold search_script in Hrun. cbn [run_script] in Hrun. unfold run_search in Hrun.
  injection Hrun as <-. cbn. intros [= <- <-]. auto.
Qed.

Lemma fetch_search_healthy env args st :
  healthy env →
  fetch_search env args st
  = (Ok (search_data (world env) (String_ (query args)) (dbFilter_of (database args))
           (search_safeLimit args) (search_safeExcerpt args)),
     after_run JXA (jxa_tmp env (now st)) 30000 (search_script args) st).
Proof.
  intros Hh. unfold fetch_search, mbind, M_bind.
  rewrite (runJXA_healthy _ _ _ _ Hh). reflexivity.
Qed.

Lemma searchWithExcerpts_healthy env args st :
  healthy env →
  ∃ data st',
    fetch_search env args st = (Ok data, st')
    ∧ searchWithExcerpts env args st = (Ok (text_response (render_search data)), st').
Proof.
  intros Hh. eexists _, _. split; [apply (fetch_search_healthy _ _ _ Hh)|].
  unfold searchWithExcerpts, mbind, M_bind.
  rewrite (fetch_search_healthy _ _ _ Hh). reflexivity.
Qed.

Lemma safeLimit_le_50 args : search_safeLimit args ≤ 50.
Proof. unfold search_safeLimit. lia. Qed.

Lemma safeMaxDocs_le_50 args : group_safeMaxDocs args ≤ 50.
Proof. unfold group_safeMaxDocs. lia. Qed.

(** ** Search: the database filter *)

Lemma dbFilter_of_nonempty (d : jsstring) : d ≠ [] → dbFilter_of (Some d) = Some d.
Proof. destruct d; [congruence | reflexivity]. Qed.

Lemma kept_by_filter (d : jsstring) (r : DTRecord) :
  d ≠ [] → negb (filtered_out (Some d) r) = true → rec_database r = d.
Proof.
  intros Hd. unfold filtered_out, eqb. destruct d; [congruence|]. cbn [truthy andb].
  rewrite negb_involutive. apply bool_decide_eq_true_1.
Qed.

(** C4, as amended. For a request that names a non-empty database, every
    result of the returned list has that database as its resolved database
    name, whatever databases the matches of the global search come from; and
    when nothing disturbs the process the list is returned and rendered. *)
Theorem search_results_in_requested_database
    (env : Env) (args : Args) (st : State) (d : jsstring) :
  database args = Some d → d ≠ [] →
  (∀ data st',
     fetch_search env args st = (Ok data, st') →
     Forall (λ r, sr_database r = d) (sd_results data))
  ∧ (healthy env →
     ∃ data st',
       fetch_search env args st = (Ok data, st')
       ∧ searchWithExcerpts env args st = (Ok (text_response (render_search data)), st')).
Proof.
  intros Hdb Hd. split; [|apply searchWithExcerpts_healthy].
  intros data st' Hfetch. apply fetch_search_Ok in Hfetch as [-> _].
  rewrite search_results_closed, Hdb, (dbFilter_of_nonempty d Hd).
  apply Forall_forall. intros x Hx.
  apply list_elem_of_In, in_map_iff in Hx as (r & <- & Hr).
  apply list_elem_of_In, elem_of_take in Hr as (i & Hi & _).
  apply list_elem_of_lookup_2, list_elem_of_In, filter_In in Hi as [_ Hkeep].
  cbn [search_entry sr_database]. now apply kept_by_filter.
Qed.

Lemma search_results_in_requested_database_witness :
  ∃ data st',
    fetch_search sample_env (search_args (lit "ONVIF") (Some (lit "Inbox")) None) sample_state
    = (Ok data, st')
    ∧ Forall (λ r, sr_database r = lit "Inbox") (sd_results data)
    ∧ length (sd_results data) = 1%nat.
Proof.
  destruct (search_results_in_requested_database sample_env
              (search_args (lit "ONVIF") (Some (lit "Inbox")) None) sample_state
              (lit "Inbox")) as [Hall Hrun].
  - reflexivity.
  - discriminate.
  - destruct (Hrun sample_env_healthy) as (data & st' & Hfetch & _).
    exists data, st'. split; [exact Hfetch|]. split; [exact (Hall _ _ Hfetch)|].
    apply fetch_search_Ok in Hfetch as [-> _]. reflexivity.
Defined.

(** With the empty string as the database name nothing is filtered: a match
    from another database is returned. *)
Lemma empty_database_name_not_filtered :
  database (search_args (lit "ONVIF") (Some []) None) = Some []
  ∧ ∃ data st',
      fetch_search sample_env (search_args (lit "ONVIF") (Some []) None) sample_state
      = (Ok data, st')
      ∧ List.map sr_database (sd_results data) = [lit "Active_Work"; lit "Inbox"]
      ∧ ¬ Forall (λ r, sr_database r = []) (sd_results data).
Proof.
  split; [reflexivity|].
  eexists _, _. split; [apply (fetch_search_healthy _ _ _ sample_env_healthy)|].
  split; [reflexivity|].
  intros H. apply Forall_inv in H. discriminate H.
Qed.

(** ** Navigation: the loop in closed form *)

(** The loop writes a line for each of the first [maxDocs - counter] children
    that are documents, in order. *)
Lemma children_loop_closed maxDocs kids out counter :
  children_loop maxDocs kids out counter
  = out ++ concat (List.map line_of_record
                     (take (Z.to_nat (maxDocs - counter))
                        (List.filter (λ k, is_document (rec_type k)) kids))).
Proof.
  revert out counter.
  induction kids as [|k kids IH]; intros out counter; cbn [children_loop List.filter].
  - now rewrite take_nil, app_nil_r.
  - destruct (Z.geb_spec counter maxDocs) as [Hge|Hlt].
    + replace (Z.to_nat (maxDocs - counter)) with 0%nat by lia.
      now rewrite take_0, app_nil_r.
    + destruct (is_document (rec_type k)).
      * rewrite IH.
        replace (Z.to_nat (maxDocs - counter))
          with (S (Z.to_nat (maxDocs - (counter + 1)))) by lia.
        cbn [take List.map concat]. unfold line_of_record at 2.
        now rewrite <- app_assoc.
      * apply IH.
Qed.

Lemma listed_documents w group_path database maxDocs out :
  run_list_children w group_path database maxDocs = Returned (PText out) →
  ∃ kids docs,
    dt_children w group_path database = Some kids
    ∧ docs = take (Z.to_nat maxDocs) (List.filter (λ k, is_document (rec_type k)) kids)
    ∧ out = concat (List.map line_of_record docs)
    ∧ (length docs ≤ Z.to_nat maxDocs)%nat.
Proof.
  unfold run_list_children. destruct (dt_children _ _ _) as [kids|]; [|discriminate].
  intros [= <-]. eexists kids, _. split; [reflexivity|]. split; [reflexivity|]. split.
  - rewrite children_loop_closed, Z.sub_0_r. reflexivity.
  - rewrite length_take. lia.
Qed.

(** ** Search: caps and defaults *)

Lemma search_results_length w query dbFilter limit excerptLen :
  (length (sd_results (search_data w query dbFilter limit excerptLen)) ≤ Z.to_nat limit)%nat.
Proof.
  rewrite search_results_closed, length_map, length_take. lia.
Qed.

(** C5. The limit written into the search script never exceeds 50: 9999 is
    clamped to 50, an omitted limit is 10, and a returned list has at most 50
    results. The document cap written into the list-children script never
    exceeds 50: 9999 is clamped to 50, an omitted [max_docs] is 20, and the
    script lists at most 50 documents. *)
Theorem limits_capped_at_50 (env : Env) (args : Args) (st : State) :
  (search_safeLimit args ≤ 50
   ∧ (∀ q f l e, search_script args = SearchScript q f l e → l = search_safeLimit args)
   ∧ (limit args = Some 9999 → search_safeLimit args = 50)
   ∧ (limit args = None → search_safeLimit args = 10)
   ∧ (∀ data st',
        fetch_search env args st = (Ok data, st') →
        (length (sd_results data) ≤ 50)%nat ∧ sd_returned data ≤ 50))
  ∧ (group_safeMaxDocs args ≤ 50
     ∧ (∀ p d m, list_children_script args = ListChildrenScript p d m →
                 m = group_safeMaxDocs args)
     ∧ (max_docs args = Some 9999 → group_safeMaxDocs args = 50)
     ∧ (max_docs args = None → group_safeMaxDocs args = 20)
     ∧ (∀ out,
          run_script (world env) AppleScript (list_children_script args)
          = Returned (PText out) →
          ∃ docs, out = concat (List.map line_of_record docs) ∧ (length docs ≤ 50)%nat)).
Proof.
  split; repeat split.
  - apply safeLimit_le_50.
  - intros q f l e [= _ _ <- _]. reflexivity.
  - unfold search_safeLimit. intros ->. reflexivity.
  - unfold search_safeLimit. intros ->. reflexivity.
  - apply fetch_search_Ok in H as [-> _].
    pose proof (search_results_length (world env) (String_ (query args))
                  (dbFilter_of (database args)) (search_safeLimit args)
                  (search_safeExcerpt args)).
    pose proof (safeLimit_le_50 args). lia.
  - apply fetch_search_Ok in H as [-> _].
    unfold search_data at 1. cbn [sd_returned].
    pose proof (search_results_length (world env) (String_ (query args))
                  (dbFilter_of (database args)) (search_safeLimit args)
                  (search_safeExcerpt args)) as Hlen.
    unfold search_data in Hlen. cbn [sd_results] in Hlen.
    pose proof (safeLimit_le_50 args). lia.
  - apply safeMaxDocs_le_50.
  - intros p d m [= _ _ <-]. reflexivity.
  - unfold group_safeMaxDocs. intros ->. reflexivity.
  - unfold group_safeMaxDocs. intros ->. reflexivity.
  - intros out Hrun. unfold list_children_script in Hrun. cbn [run_script] in Hrun.
    apply listed_documents in Hrun as (kids & docs & _ & _ & -> & Hlen).
    exists docs. split; [reflexivity|].
    pose proof (safeMaxDocs_le_50 args). lia.
Qed.

Lemma limits_capped_at_50_witness :
  search_safeLimit (search_args (lit "ONVIF") None (Some 9999)) = 50
  ∧ search_safeLimit (search_args (lit "ONVIF") None None) = 10
  ∧ group_safeMaxDocs (group_args (lit "/Projects") (lit "Active_Work") (Some 9999)) = 50
  ∧ group_safeMaxDocs (group_args (lit "/Projects") (lit "Active_Work") None) = 20
  ∧ (∃ data st',
       fetch_search sample_env (search_args (lit "ONVIF") None (Some 9999)) sample_state
       = (Ok data, st')
       ∧ (length (sd_results data) ≤ 50)%nat)
  ∧ (∃ docs,
       lit "U1|||Doc One|||markdown" ++ [CR] ++ lit "U2|||Doc,Two|||PDF document" ++ [CR]
       = concat (List.map line_of_record docs)
       ∧ (length docs ≤ 50)%nat)
  ∧ 50 = search_safeLimit (search_args (lit "ONVIF") None (Some 9999))
  ∧ 50 = group_safeMaxDocs (group_args (lit "/Projects") (lit "Active_Work") (Some 9999)).
Proof.
  destruct (limits_capped_at_50 sample_env (search_args (lit "ONVIF") None (Some 9999))
              sample_state) as [(_ & Hscript & H9999 & _ & Hdata) _].
  destruct (limits_capped_at_50 sample_env (search_args (lit "ONVIF") None None)
              sample_state) as [(_ & _ & _ & Hnone & _) _].
  destruct (limits_capped_at_50 sample_env
              (group_args (lit "/Projects") (lit "Active_Work") (Some 9999))
              sample_state) as [_ (_ & Gscript & G9999 & _ & Gout)].
  destruct (limits_capped_at_50 sample_env
              (group_args (lit "/Projects") (lit "Active_Work") None)
              sample_state) as [_ (_ & _ & _ & Gnone & _)].
  split; [apply H9999; reflexivity|].
  split; [apply Hnone; reflexivity|].
  split; [apply G9999; reflexivity|].
  split; [apply Gnone; reflexivity|].
  split.
  { eexists _, _. split; [apply (fetch_search_healthy _ _ _ sample_env_healthy)|].
    eapply Hdata. apply (fetch_search_healthy _ _ _ sample_env_healthy). }
  split; [apply Gout; reflexivity|].
  split.
  - eapply Hscript. reflexivity.
  - eapply Gscript. reflexivity.
Defined.

(** ** Search: the reported total *)

Lemma render_fold {A} (f : A → jsstring) (l : list A) (init : jsstring) :
  fold_left (λ text x, text ++ f x) l init = init ++ concat (List.map f l).
Proof.
  revert init. induction l as [|x l IH]; intros init; cbn [fold_left List.map concat].
  - now rewrite app_nil_r.
  - now rewrite IH, <- app_assoc.
Qed.

Lemma filter_length_lt {A} (p : A → bool) (l : list A) :
  Exists (λ x, p x = false) l → (length (List.filter p l) < length l)%nat.
Proof.
  induction 1 as [x l Hx | x l _ IH]; cbn [List.filter length].
  - rewrite Hx. pose proof (List.filter_length_le p l). lia.
  - destruct (p x); cbn [length]; lia.
Qed.

Lemma filter_by_database (d : jsstring) (raw : list DTRecord) :
  d ≠ [] →
  List.filter (λ r, negb (filtered_out (Some d) r)) raw
  = List.filter (λ r, eqb (rec_database r) d) raw.
Proof.
  intros Hd. apply List.filter_ext. intros r. unfold filtered_out.
  destruct d; [congruence|]. cbn [truthy andb]. apply negb_involutive.
Qed.

(** C9. In the rendered output of a search the count after "Found" is the
    number of matches of the global search, taken before the database filter;
    the count after "showing" is the number of results returned. With a
    (non-empty) database filter the results returned are at most the matches
    that pass the filter, and these are fewer than the reported total as soon
    as one match of the global search lies in another database. *)
Theorem total_counts_global_matches (env : Env) (args : Args) (st : State) :
  let raw := dt_search (world env) (String_ (query args)) in
  (∀ data st',
     fetch_search env args st = (Ok data, st') →
     sd_total data = Z.of_nat (length raw)
     ∧ render_search data
       = lit "Found **" ++ show (Z.of_nat (length raw)) ++ lit "** results (showing "
         ++ show (Z.of_nat (length (sd_results data))) ++ lit "):" ++ [LF; LF]
         ++ concat (List.map render_result (sd_results data))
     ∧ ∀ d, database args = Some d → d ≠ [] →
         let passing := List.filter (λ r, eqb (rec_database r) d) raw in
         (length (sd_results data) ≤ length passing ≤ length raw)%nat
         ∧ (Exists (λ r, rec_database r ≠ d) raw → (length passing < length raw)%nat))
  ∧ (healthy env →
     ∃ data st',
       fetch_search env args st = (Ok data, st')
       ∧ searchWithExcerpts env args st = (Ok (text_response (render_search data)), st')).
Proof.
  intros raw. split; [|apply searchWithExcerpts_healthy].
  intros data st' Hfetch. apply fetch_search_Ok in Hfetch as [-> _].
  split; [reflexivity|]. split.
  - unfold render_search. rewrite render_fold.
    unfold search_data. cbn [sd_total sd_returned sd_results]. fold raw.
    now rewrite <- !app_assoc.
  - intros d Hdb Hd passing.
    rewrite search_results_closed, Hdb, (dbFilter_of_nonempty d Hd).
    rewrite (filter_by_database d _ Hd). fold raw. fold passing.
    rewrite length_map, length_take. split.
    + pose proof (List.filter_length_le (λ r, eqb (rec_database r) d) raw).
      fold passing in H. lia.
    + intros Hex. apply filter_length_lt.
      eapply Exists_impl; [exact Hex|]. cbn beta. intros r Hr. unfold eqb.
      now apply bool_decide_eq_false_2.
Qed.

Lemma total_counts_global_matches_witness :
  ∃ data st',
    fetch_search sample_env (search_args (lit "ONVIF") (Some (lit "Inbox")) None) sample_state
    = (Ok data, st')
    ∧ sd_total data = 2
    ∧ length (sd_results data) = 1%nat
    ∧ (length (List.filter (λ r, eqb (rec_database r) (lit "Inbox"))
                 (dt_search sample_world (lit "ONVIF"))) < 2)%nat.
Proof.
  destruct (total_counts_global_matches sample_env
              (search_args (lit "ONVIF") (Some (lit "Inbox")) None) sample_state)
    as [Hdata Hrun].
  destruct (Hrun sample_env_healthy) as (data & st' & Hfetch & _).
  destruct (Hdata data st' Hfetch) as (Htotal & _ & Hfilter).
  destruct (Hfilter (lit "Inbox") eq_refl) as [_ Hlt]; [discriminate|].
  exists data, st'. split; [exact Hfetch|]. split; [exact Htotal|]. split.
  - apply fetch_search_Ok in Hfetch as [-> _]. reflexivity.
  - apply Hlt. left. discriminate.
Defined.

(** ** Splitting the navigation output *)

Lemma starts_with_app (sep rest : jsstring) : starts_with sep (sep ++ rest) = true.
Proof. induction sep as [|c sep IH]; cbn; [reflexivity|]. now rewrite N.eqb_refl. Qed.

Lemma starts_with_other (c x : N) (sep s : jsstring) :
  x ≠ c → starts_with (c :: sep) (x :: s) = false.
Proof. intros Hne. cbn. destruct (N.eqb_spec c x); [congruence | reflexivity]. Qed.

Lemma split_go_skip (sep t cur rest : jsstring) :
  split_go sep (length t) cur (t ++ rest) = split_go sep 0 cur rest.
Proof. induction t as [|x t IH]; [reflexivity|]. cbn [length app split_go]. exact IH. Qed.

Lemma split_go_cons (sep cur : jsstring) (c : N) (s : jsstring) :
  split_go sep 0 cur (c :: s)
  = if starts_with sep (c :: s)
    then cur :: split_go sep (length sep - 1) [] s
    else split_go sep 0 (cur ++ [c]) s.
Proof. reflexivity. Qed.

(** A piece free of the separator's first code unit is cut off whole. *)
Lemma split_go_piece (c : N) (sep piece cur rest : jsstring) :
  c ∉ piece →
  split_go (c :: sep) 0 cur (piece ++ (c :: sep) ++ rest)
  = (cur ++ piece) :: split_go (c :: sep) 0 [] rest.
Proof.
  revert cur. induction piece as [|x piece IH]; intros cur Hc.
  - rewrite app_nil_l, app_nil_r. rewrite <- app_comm_cons, split_go_cons.
    rewrite app_comm_cons, starts_with_app.
    replace (length (c :: sep) - 1)%nat with (length sep) by (cbn [length]; lia).
    now rewrite split_go_skip.
  - apply not_elem_of_cons in Hc as [Hx Hc].
    rewrite <- app_comm_cons, split_go_cons.
    rewrite starts_with_other by congruence.
    rewrite IH by assumption. now rewrite <- app_assoc.
Qed.

Lemma split_go_last (c : N) (sep piece cur : jsstring) :
  c ∉ piece → split_go (c :: sep) 0 cur piece = [cur ++ piece].
Proof.
  revert cur. induction piece as [|x piece IH]; intros cur Hc.
  - cbn. now rewrite app_nil_r.
  - apply not_elem_of_cons in Hc as [Hx Hc].
    rewrite split_go_cons, starts_with_other by congruence.
    rewrite IH by assumption. now rewrite <- app_assoc.
Qed.

Lemma split_fields (u n k : jsstring) :
  BAR ∉ u → BAR ∉ n → BAR ∉ k →
  split (lit "|||") (u ++ lit "|||" ++ n ++ lit "|||" ++ k) = [u; n; k].
Proof.
  intros Hu Hn Hk. unfold split.
  change (lit "|||") with (BAR :: [BAR; BAR]).
  rewrite (split_go_piece BAR [BAR; BAR] u [] _ Hu).
  rewrite (split_go_piece BAR [BAR; BAR] n [] _ Hn).
  rewrite (split_go_last BAR [BAR; BAR] k [] Hk). reflexivity.
Qed.

Lemma split_lines (lines : list jsstring) :
  Forall (λ l, CR ∉ l) lines →
  split [CR] (concat (List.map (λ l, l ++ [CR]) lines)) = lines ++ [[]].
Proof.
  unfold split. induction 1 as [|l lines Hl _ IH]; [reflexivity|].
  cbn [List.map concat app]. rewrite <- app_assoc.
  rewrite (split_go_piece CR [] l [] _ Hl). now rewrite IH.
Qed.

Lemma parse_line_clean (u n k : jsstring) :
  BAR ∉ u → BAR ∉ n → BAR ∉ k →
  parse_line (u ++ lit "|||" ++ n ++ lit "|||" ++ k) = child_of (u, n, k).
Proof. intros Hu Hn Hk. unfold parse_line. now rewrite split_fields. Qed.

Lemma parsed_children_of_lines (recs : list (jsstring * jsstring * jsstring)) :
  Forall clean recs →
  parseNavigation (concat (List.map line_of recs))
  = List.map child_of (List.filter usable recs).
Proof.
  intros Hclean. unfold parseNavigation.
  set (body := λ rec : jsstring * jsstring * jsstring,
         let '(u, n, k) := rec in u ++ lit "|||" ++ n ++ lit "|||" ++ k).
  assert (List.map line_of recs = List.map (λ l, l ++ [CR]) (List.map body recs)) as ->.
  { rewrite List.map_map. apply List.map_ext. intros [[u n] k].
    unfold line_of, nav_line, body. now rewrite <- !app_assoc. }
  rewrite split_lines.
  - induction Hclean as [|[[u n] k] recs Hrec _ IH]; [reflexivity|].
    cbn [List.map app]. unfold clean in Hrec.
    apply Forall_cons in Hrec as [[Hu _] Hrec].
    apply Forall_cons in Hrec as [[Hn _] Hrec].
    apply Forall_cons in Hrec as [[Hk _] _].
    assert (truthy (body (u, n, k)) = true) as Ht.
    { unfold body. destruct u; reflexivity. }
    assert (parse_line (body (u, n, k)) = child_of (u, n, k)) as Hp
      by exact (parse_line_clean u n k Hu Hn Hk).
    cbn [List.filter]. rewrite Ht. cbn [List.map List.filter]. rewrite !Hp.
    cbn [child_of gc_uuid gc_name truthy_field usable].
    destruct (truthy (trim u) && truthy (trim n)); cbn [List.map]; now rewrite IH.
  - apply Forall_forall. intros l Hl.
    apply list_elem_of_In, in_map_iff in Hl as ([[u n] k] & <- & Hin).
    rewrite Forall_forall in Hclean.
    specialize (Hclean _ (proj2 (list_elem_of_In _ _) Hin)). unfold clean in Hclean.
    apply Forall_cons in Hclean as [[_ Hu] Hclean].
    apply Forall_cons in Hclean as [[_ Hn] Hclean].
    apply Forall_cons in Hclean as [[_ Hk] _].
    unfold body. rewrite !not_elem_of_app. repeat split; try assumption.
    all: vm_compute; intros H; repeat (apply elem_of_cons in H as [H|H]; [discriminate|]);
         now apply elem_of_nil in H.
Qed.

Lemma parsed_children_usable (raw : jsstring) (c : GroupChild) :
  c ∈ parseNavigation raw →
  ∃ u n, gc_uuid c = Some u ∧ gc_name c = Some n ∧ u ≠ [] ∧ n ≠ [].
Proof.
  unfold parseNavigation. intros Hc.
  apply list_elem_of_In, filter_In in Hc as [_ Hc].
  apply andb_prop in Hc as [Hu Hn].
  destruct (gc_uuid c) as [u|]; [|discriminate].
  destruct (gc_name c) as [n|]; [|discriminate].
  exists u, n. repeat split; intros ->; discriminate.
Qed.

(** C3. The normalizer reads lines ended by carriage return, fields separated
    by the three code units "|||", trims every field, drops the empty piece
    after the last terminator and drops every record whose identity or name is
    empty after trimming: for records whose fields hold neither '|' nor a
    carriage return (a line feed or a comma may occur), the output of one line
    per record parses to the trimmed records that have an identity and a name,
    in order; every entry ever returned has a non-empty identity and name; a
    line feed does not end a record; and the output of the specification's
    example parses to exactly the two entries, with "Doc,Two" intact, also
    after the runner has trimmed it. *)
Theorem navigation_output_parsing :
  (∀ recs, Forall clean recs →
     parseNavigation (concat (List.map line_of recs))
     = List.map child_of (List.filter usable recs))
  ∧ (∀ raw c, c ∈ parseNavigation raw →
       ∃ u n, gc_uuid c = Some u ∧ gc_name c = Some n ∧ u ≠ [] ∧ n ≠ [])
  ∧ parseNavigation
      (lit "U1|||Doc One|||markdown" ++ [LF] ++ lit "U2|||Doc,Two|||PDF document")
    = [ {| gc_uuid := Some (lit "U1"); gc_name := Some (lit "Doc One");
           gc_kind := Some (lit "markdown" ++ [LF] ++ lit "U2") |} ]
  ∧ parseNavigation (lit "U5|||A|B, C||D|||txt" ++ [CR])
    = [ {| gc_uuid := Some (lit "U5"); gc_name := Some (lit "A|B, C||D");
           gc_kind := Some (lit "txt") |} ]
  ∧ parseNavigation spec_example_output
    = [ child_of (lit "U1", lit "Doc One", lit "markdown");
        child_of (lit "U2", lit "Doc,Two", lit "PDF document") ]
  ∧ parseNavigation (trim (spec_example_output ++ [LF]))
    = [ {| gc_uuid := Some (lit "U1"); gc_name := Some (lit "Doc One");
           gc_kind := Some (lit "markdown") |};
        {| gc_uuid := Some (lit "U2"); gc_name := Some (lit "Doc,Two");
           gc_kind := Some (lit "PDF document") |} ].
Proof.
  split; [exact parsed_children_of_lines|].
  split; [exact parsed_children_usable|].
  repeat split; vm_compute; reflexivity.
Qed.

Lemma navigation_output_parsing_witness :
  parseNavigation
    (concat (List.map line_of
       [ (lit "U1", lit " Doc One ", lit "markdown");
         (lit "U4", lit "  ", lit "markdown");
         (lit "U2", lit "Doc,Two", lit "PDF document" ++ [LF]) ]))
  = [ {| gc_uuid := Some (lit "U1"); gc_name := Some (lit "Doc One");
         gc_kind := Some (lit "markdown") |};
      {| gc_uuid := Some (lit "U2"); gc_name := Some (lit "Doc,Two");
         gc_kind := Some (lit "PDF document") |} ]
  ∧ ∃ u n,
      gc_uuid (child_of (lit "U1", lit "Doc One", lit "markdown")) = Some u
      ∧ gc_name (child_of (lit "U1", lit "Doc One", lit "markdown")) = Some n
      ∧ u ≠ [] ∧ n ≠ [].
Proof.
  destruct navigation_output_parsing as (Hlines & Husable & _).
  split.
  - rewrite Hlines; [reflexivity|].
    repeat constructor; apply (bool_decide_unpack _); vm_compute; exact I.
  - apply (Husable spec_example_output). vm_compute. left.
Defined.

(** ** Dispatch *)

Lemma call_tool_handler env name handler args st :
  (name, handler) ∈ handlers →
  call_tool env (tool_request name args) st
  = try_catch (handler env args)
      (λ err, mret (error_response (lit "Error: " ++ message err))) st.
Proof.
  unfold handlers. intros H.
  repeat (apply elem_of_cons in H as [[= -> ->]|H]; [reflexivity|]).
  now apply elem_of_nil in H.
Qed.

Lemma call_tool_total env req st :
  ∃ resp st', call_tool env req st = (Ok resp, st').
Proof.
  unfold call_tool, try_catch.
  match goal with |- context [?body st] =>
    match body with (if _ then _ else _) => destruct (body st) as [[resp|e] st1] end
  end; cbn; eauto.
Qed.

Lemma getContentChunked_not_found env args st :
  healthy env →
  dt_getRecordWithUuid (world env) (String_ (uuid args)) = None →
  getContentChunked env args st
  = (Throw (CommandFailed (command_line JXA (jxa_tmp env (now st)))
              (lit "execution error: Error: " ++ lit "Record not found: "
               ++ String_ (uuid args))),
     after_run JXA (jxa_tmp env (now st)) 30000 (chunk_script args) st).
Proof.
  intros Hh Hr. unfold getContentChunked, fetch_page, mbind, M_bind.
  rewrite (runJXA_healthy _ _ _ _ Hh).
  unfold script_result, chunk_script. cbn [run_script]. unfold run_chunk.
  rewrite Hr. reflexivity.
Qed.

(** C6. The dispatch never throws: for every request and every behaviour of
    the environment it returns a response. Whenever the handler of a tool
    throws, the response is the single text block "Error: " followed by the
    failure's message, flagged as an error. In particular, when the identity
    given to dt_get_content_chunked does not resolve, the handler throws a
    failure whose message ends with the script's "Record not found: <uuid>",
    and it comes back as such a block. *)
Theorem dispatch_catches_every_failure (env : Env) (st : State) :
  (∀ req, ∃ resp st', call_tool env req st = (Ok resp, st'))
  ∧ (∀ name handler args e st',
       (name, handler) ∈ handlers →
       handler env args st = (Throw e, st') →
       ∃ resp, call_tool env (tool_request name args) st = (Ok resp, st')
               ∧ reports resp e)
  ∧ (∀ args,
       healthy env →
       dt_getRecordWithUuid (world env) (String_ (uuid args)) = None →
       ∃ e st' resp pre,
         getContentChunked env args st = (Throw e, st')
         ∧ message e = pre ++ lit "Record not found: " ++ String_ (uuid args)
         ∧ call_tool env (tool_request "dt_get_content_chunked" args) st = (Ok resp, st')
         ∧ reports resp e).
Proof.
  split; [intros req; apply call_tool_total|]. split.
  - intros name handler args e st' Hin Hthrow.
    rewrite (call_tool_handler _ _ _ _ _ Hin). unfold try_catch. rewrite Hthrow.
    eexists. split; [reflexivity|]. split; reflexivity.
  - intros args Hh Hr.
    rewrite call_tool_chunked. unfold try_catch.
    rewrite (getContentChunked_not_found _ _ _ Hh Hr).
    eexists _, _, _,
      (lit "Command failed: " ++ command_line JXA (jxa_tmp env (now st)) ++ [LF]
       ++ lit "execution error: Error: ").
    split; [reflexivity|]. split.
    + cbn [message]. now rewrite <- !app_assoc.
    + split; [reflexivity|]. split; reflexivity.
Qed.

Lemma dispatch_catches_every_failure_witness :
  (∃ resp st',
     call_tool sample_env
       (tool_request "dt_get_content_chunked" (chunk_args (lit "U9") 0 4000)) sample_state
     = (Ok resp, st')
     ∧ isError resp = true
     ∧ List.map text (content resp)
       = [lit "Error: Command failed: osascript -l JavaScript /tmp/dt-jxa-1700000000000.js"
          ++ [LF] ++ lit "execution error: Error: Record not found: U9"])
  ∧ (∃ resp st',
       call_tool hanging_env
         (tool_request "dt_search_with_excerpts" (search_args (lit "ONVIF") None None))
         sample_state
       = (Ok resp, st')
       ∧ reports resp (CommandTimedOut (lit "osascript -l JavaScript /tmp/dt-jxa-1700000000000.js"))).
Proof.
  split.
  - destruct (dispatch_catches_every_failure sample_env sample_state) as (_ & _ & Hnf).
    destruct (Hnf (chunk_args (lit "U9") 0 4000) sample_env_healthy eq_refl)
      as (e & st' & resp & pre & _ & _ & Hcall & Hblock & Hflag).
    exists resp, st'. split; [exact Hcall|]. split; [exact Hflag|].
    vm_compute in Hcall. injection Hcall as <- _. reflexivity.
  - destruct (dispatch_catches_every_failure hanging_env sample_state) as (_ & Hcatch & _).
    destruct (Hcatch "dt_search_with_excerpts"%string searchWithExcerpts
                (search_args (lit "ONVIF") None None)
                (CommandTimedOut (lit "osascript -l JavaScript /tmp/dt-jxa-1700000000000.js"))
                (after_run JXA (jxa_tmp hanging_env (now sample_state)) 30000
                   (search_script (search_args (lit "ONVIF") None None)) sample_state))
      as (resp & Hcall & Hrep).
    + apply list_elem_of_here.
    + vm_compute. reflexivity.
    + exists resp. eexists. split; [exact Hcall | exact Hrep].
Defined.

(** ** A group without usable children *)

Lemma runAppleScript_Ok env script timeoutMs st out st' :
  runAppleScript env script timeoutMs st = (Ok out, st') →
  spawned st'
  = spawned st ++ [spawn_of AppleScript (as_tmp env (now st)) timeoutMs script].
Proof.
  rewrite runAppleScript_invocation. intros H.
  apply invocation_Ok in H as (_ & _ & _ & ->). reflexivity.
Qed.

Lemma filter_none {A} (p : A → bool) (l : list A) :
  Forall (λ x, p x = false) l → List.filter p l = [].
Proof. induction 1 as [|x l Hx _ IH]; cbn [List.filter]; [|rewrite Hx]; auto. Qed.

Lemma getGroupContext_no_children env args st asResult st1 :
  runAppleScript env (list_children_script args) 30000 st = (Ok (PText asResult), st1) →
  parseNavigation asResult = [] →
  getGroupContext env args st
  = (Ok (text_response (if truthy asResult
                        then no_documents_found args
                        else empty_or_not_found args)), st1).
Proof.
  intros Hrun Hnone.
  unfold getGroupContext, mbind, M_bind. rewrite Hrun.
  cbn [stdout_text mret M_ret].
  destruct (truthy asResult); cbn [negb]; [|reflexivity].
  rewrite Hnone. reflexivity.
Qed.

(** C7, as amended. When the navigation phase of dt_get_group_context returns
    an output without usable children, no batch plain-text fetch is made: the
    navigation process is the only process of the call. If the output is empty
    the answer is the "is empty or not found" message; if it is not empty but
    no record has an identity and a name, the answer is the "No documents
    found" message. In particular a group that resolves and has no child
    other than groups and smart groups gets the "is empty or not found"
    message. *)
Theorem no_usable_children_no_batch_fetch (env : Env) (args : Args) (st : State) :
  let navigation :=
    spawn_of AppleScript (as_tmp env (now st)) 30000 (list_children_script args) in
  (∀ asResult st1,
     runAppleScript env (list_children_script args) 30000 st = (Ok (PText asResult), st1) →
     parseNavigation asResult = [] →
     getGroupContext env args st
     = (Ok (text_response (if truthy asResult
                           then no_documents_found args
                           else empty_or_not_found args)), st1)
     ∧ spawned st1 = spawned st ++ [navigation])
  ∧ (∀ kids,
       healthy env →
       dt_children (world env) (String_ (group_path args)) (String_ (database args))
       = Some kids →
       Forall (λ k, is_document (rec_type k) = false) kids →
       ∃ st1,
         getGroupContext env args st = (Ok (text_response (empty_or_not_found args)), st1)
         ∧ spawned st1 = spawned st ++ [navigation]).
Proof.
  intros navigation. split.
  - intros asResult st1 Hrun Hnone.
    split; [exact (getGroupContext_no_children _ _ _ _ _ Hrun Hnone)|].
    exact (runAppleScript_Ok _ _ _ _ _ _ Hrun).
  - intros kids Hh Hkids Hgroups.
    assert (runAppleScript env (list_children_script args) 30000 st
            = (Ok (PText []),
               after_run AppleScript (as_tmp env (now st)) 30000
                 (list_children_script args) st)) as Hrun.
    { rewrite (runAppleScript_healthy _ _ _ _ Hh). f_equal.
      unfold script_result, list_children_script. cbn [run_script].
      unfold run_list_children. rewrite Hkids, children_loop_closed.
      now rewrite (filter_none _ _ Hgroups), take_nil. }
    eexists. split; [|exact (runAppleScript_Ok _ _ _ _ _ _ Hrun)].
    exact (getGroupContext_no_children _ _ _ _ _ Hrun eq_refl).
Qed.

Lemma no_usable_children_no_batch_fetch_witness :
  (∃ st1,
     getGroupContext sample_env (group_args (lit "/Folders") (lit "Active_Work") None)
       sample_state
     = (Ok (text_response
              (lit "Group " ++ [DQUOTE] ++ lit "/Folders" ++ [DQUOTE] ++ lit " in "
               ++ [DQUOTE] ++ lit "Active_Work" ++ [DQUOTE]
               ++ lit " is empty or not found.")), st1)
     ∧ List.map sp_dialect (spawned st1) = [AppleScript])
  ∧ (∃ st1,
       getGroupContext sample_env (group_args (lit "/Blank") (lit "Active_Work") None)
         sample_state
       = (Ok (text_response
                (lit "No documents found in " ++ [DQUOTE] ++ lit "/Blank" ++ [DQUOTE]
                 ++ lit ".")), st1)
       ∧ List.map sp_dialect (spawned st1) = [AppleScript]).
Proof.
  split.
  - destruct (no_usable_children_no_batch_fetch sample_env
                (group_args (lit "/Folders") (lit "Active_Work") None) sample_state)
      as [_ Hgroup].
    destruct (Hgroup [sub_group] sample_env_healthy eq_refl) as (st1 & Hresp & Hspawned).
    { repeat constructor. }
    exists st1. split; [exact Hresp|]. rewrite Hspawned. reflexivity.
  - destruct (no_usable_children_no_batch_fetch sample_env
                (group_args (lit "/Blank") (lit "Active_Work") None) sample_state)
      as [Hgeneral _].
    destruct (Hgeneral (lit "U3||| |||markdown")
                (after_run AppleScript (as_tmp sample_env (now sample_state)) 30000
                   (list_children_script (group_args (lit "/Blank") (lit "Active_Work") None))
                   sample_state))
      as [Hresp Hspawned].
    + vm_compute. reflexivity.
    + reflexivity.
    + eexists. split; [exact Hresp|]. rewrite Hspawned. reflexivity.
Defined.

(** A group whose only document has a blank name: the navigation output is
    not empty, no record survives the filter, and the answer is not the "is
    empty or not found" message. *)
Lemma blank_name_gives_other_message :
  let args := group_args (lit "/Blank") (lit "Active_Work") None in
  ∃ asResult st1,
    runAppleScript sample_env (list_children_script args) 30000 sample_state
    = (Ok (PText asResult), st1)
    ∧ asResult = lit "U3||| |||markdown"
    ∧ parseNavigation asResult = []
    ∧ getGroupContext sample_env args sample_state
      = (Ok (text_response (no_documents_found args)), st1)
    ∧ no_documents_found args ≠ empty_or_not_found args.
Proof.
  intros args. eexists _, _.
  split; [vm_compute; reflexivity|].
  split; [reflexivity|]. split; [reflexivity|].
  split; [vm_compute; reflexivity | discriminate].
Qed.

(** * Further properties of the bridge *)

(** ** Trimming *)

Lemma trim_start_app (a b : jsstring) (c : N) :
  is_space c = false → trim_start (a ++ c :: b) = trim_start a ++ c :: b.
Proof.
  intros Hc. induction a as [|x a IH]; cbn [app trim_start].
  - now rewrite Hc.
  - destruct (is_space x); [exact IH | reflexivity].
Qed.

Lemma trim_end_app (a b : jsstring) (c : N) :
  is_space c = false → trim_end (a ++ c :: b) = a ++ c :: trim_end b.
Proof.
  intros Hc. unfold trim_end.
  rewrite rev_app_distr. cbn [rev]. rewrite <- app_assoc. cbn [app].
  rewrite (trim_start_app _ _ _ Hc), rev_app_distr. cbn [rev].
  rewrite rev_involutive, <- app_assoc. reflexivity.
Qed.


(** A string is all white space, or has a first code unit that is not. *)
Lemma first_non_space (s : jsstring) :
  (Forall (λ c, is_space c = true) s ∧ trim_start s = [])
  ∨ ∃ a c b, s = a ++ c :: b ∧ Forall (λ c, is_space c = true) a
             ∧ is_space c = false ∧ trim_start s = c :: b.
Proof.
  induction s as [|x s IH].
  - left. split; [constructor | reflexivity].
  - cbn [trim_start]. destruct (is_space x) eqn:Hx.
    + destruct IH as [[Hall Hnil] | (a & c & b & -> & Ha & Hc & Ht)].
      * left. split; [constructor; assumption | assumption].
      * right. exists (x :: a), c, b. repeat split; try assumption.
        constructor; assumption.
    + right. exists [], x, s. repeat split; try assumption. constructor.
Qed.

Lemma trim_start_spaces (s : jsstring) :
  Forall (λ c, is_space c = true) s → trim_start s = [].
Proof. induction 1 as [|x s Hx _ IH]; cbn [trim_start]; [|rewrite Hx]; auto. Qed.

Lemma trim_end_spaces (s : jsstring) :
  Forall (λ c, is_space c = true) s → trim_end s = [].
Proof.
  intros H. unfold trim_end. rewrite trim_start_spaces; [reflexivity|].
  apply Forall_forall. intros c Hc. rewrite Forall_forall in H. apply H.
  apply list_elem_of_In. apply list_elem_of_In, in_rev in Hc. exact Hc.
Qed.

Lemma trim_start_idem (s : jsstring) : trim_start (trim_start s) = trim_start s.
Proof.
  destruct (first_non_space s) as [[_ ->] | (a & c & b & _ & _ & Hc & ->)];
    [reflexivity|]. cbn [trim_start]. now rewrite Hc.
Qed.

Lemma trim_end_idem (s : jsstring) : trim_end (trim_end s) = trim_end s.
Proof. unfold trim_end. now rewrite rev_involutive, trim_start_idem. Qed.

Lemma trim_start_end_comm (s : jsstring) :
  trim_start (trim_end s) = trim_end (trim_start s).
Proof.
  destruct (first_non_space s) as [[Hall ->] | (a & c & b & -> & Ha & Hc & ->)].
  - now rewrite (trim_end_spaces s Hall).
  - rewrite (trim_end_app a b c Hc), (trim_start_app a _ c Hc).
    rewrite (trim_start_spaces a Ha).
    symmetry. exact (trim_end_app [] b c Hc).
Qed.

Lemma trim_idem (s : jsstring) : trim (trim s) = trim s.
Proof.
  unfold trim. rewrite trim_start_end_comm, trim_start_idem. apply trim_end_idem.
Qed.



Lemma trim_start_length (s : jsstring) : (length (trim_start s) ≤ length s)%nat.
Proof.
  induction s as [|x s IH]; cbn [trim_start length]; [lia|].
  destruct (is_space x); cbn [length]; lia.
Qed.

Lemma trim_length (s : jsstring) : (length (trim s) ≤ length s)%nat.
Proof.
  unfold trim, trim_end. rewrite length_rev.
  pose proof (trim_start_length (rev (trim_start s))) as H1.
  rewrite length_rev in H1. pose proof (trim_start_length s). lia.
Qed.

Lemma trim_start_head (s : jsstring) (c : N) (t : jsstring) :
  trim_start s = c :: t → is_space c = false.
Proof.
  destruct (first_non_space s) as [[_ ->] | (a & c' & b & _ & _ & Hc & ->)];
    [discriminate|]. now intros [= <- _].
Qed.

(** A trimmed string neither starts nor ends with white space. *)
Lemma trim_ends (s : jsstring) :
  (∀ c, head (trim s) = Some c → is_space c = false)
  ∧ (∀ c, last (trim s) = Some c → is_space c = false).
Proof.
  split; intros c.
  - unfold trim. rewrite <- trim_start_end_comm.
    destruct (trim_start (trim_end s)) as [|x t] eqn:E; [discriminate|].
    intros [= <-]. exact (trim_start_head _ _ _ E).
  - unfold trim, trim_end.
    destruct (trim_start (rev (trim_start s))) as [|x t] eqn:E; [discriminate|].
    cbn [rev]. rewrite last_snoc. intros [= <-]. exact (trim_start_head _ _ _ E).
Qed.

(** ** More on the navigation parser *)



Lemma trimmed_field (c : GroupChild) (line f : jsstring) :
  c = parse_line line → f ∈ fields_of c → ∃ p, f = trim p.
Proof.
  intros -> Hf. unfold fields_of, parse_line in Hf. cbn [gc_uuid gc_name gc_kind] in Hf.
  apply list_elem_of_omap in Hf as (o & Ho & Hid). cbn in Hid. subst o.
  repeat (apply elem_of_cons in Ho as [Ho|Ho];
          [ apply eq_sym, fmap_Some in Ho as (p & _ & ->); now exists p |]).
  now apply elem_of_nil in Ho.
Qed.

(** X1. Every field of every entry the parser returns is trimmed: trimming it
    again changes nothing, and it neither starts nor ends with white space. *)
Theorem parsed_fields_are_trimmed (raw : jsstring) (c : GroupChild) (f : jsstring) :
  c ∈ parseNavigation raw → f ∈ fields_of c →
  trim f = f
  ∧ (∀ x, head f = Some x → is_space x = false)
  ∧ (∀ x, last f = Some x → is_space x = false).
Proof.
  unfold parseNavigation. intros Hc Hf.
  apply list_elem_of_In, filter_In in Hc as [Hc _].
  apply in_map_iff in Hc as (line & Hline & _).
  destruct (trimmed_field c line f (eq_sym Hline) Hf) as [p ->].
  split; [apply trim_idem | apply trim_ends].
Qed.

Lemma parsed_fields_are_trimmed_witness :
  trim (lit "Doc One") = lit "Doc One"
  ∧ (∀ x, head (lit "Doc One") = Some x → is_space x = false)
  ∧ (∀ x, last (lit "Doc One") = Some x → is_space x = false).
Proof.
  apply (parsed_fields_are_trimmed
           (lit " U1 |||  Doc One |||markdown" ++ [CR])
           {| gc_uuid := Some (lit "U1"); gc_name := Some (lit "Doc One");
              gc_kind := Some (lit "markdown") |}).
  - vm_compute. left.
  - vm_compute. right. left.
Defined.



(** ** More on the search *)

Lemma search_first_matches
    (env : Env) (args : Args) (st : State) (data : SearchData) (st' : State) :
  fetch_search env args st = (Ok data, st') →
  let passing := passing_matches (world env) args in
  sd_results data
  = List.map (search_entry (search_safeExcerpt args))
      (take (Z.to_nat (search_safeLimit args)) passing)
  ∧ sd_returned data
    = Z.min (Z.of_nat (length passing)) (Z.max 0 (search_safeLimit args)).
Proof.
  intros Hfetch passing. apply fetch_search_Ok in Hfetch as [-> _].
  split; [apply search_results_closed|].
  unfold search_data. cbn [sd_returned]. rewrite search_loop_closed.
  cbn [app length]. rewrite Nat.sub_0_r, length_map, length_take.
  fold (passing_matches (world env) args). fold passing. lia.
Qed.






(** X5. Edge values of the search limit. A limit of 0 is read as the default
    10. A negative limit is kept as it is: the search then returns no result,
    while the reported total is still the number of global matches. *)
Theorem search_limit_zero_and_negative
    (env : Env) (args : Args) (st : State) (data : SearchData) (st' : State) :
  fetch_search env args st = (Ok data, st') →
  (limit args = Some 0 →
   sd_results data
   = List.map (search_entry (search_safeExcerpt args))
       (take 10 (passing_matches (world env) args)))
  ∧ (∀ l, limit args = Some l → l < 0 →
       sd_results data = [] ∧ sd_returned data = 0
       ∧ sd_total data
         = Z.of_nat (length (dt_search (world env) (String_ (query args))))).
Proof.
  intros Hfetch.
  destruct (search_first_matches _ _ _ _ _ Hfetch) as (Hres & Hret).
  apply fetch_search_Ok in Hfetch as [Hdata _].
  split.
  - intros H0. rewrite Hres. unfold search_safeLimit. rewrite H0. reflexivity.
  - intros l Hl Hneg.
    assert (search_safeLimit args = l) as El.
    { unfold search_safeLimit, num_or. rewrite Hl. simpl.
      destruct (Z.eqb_spec l 0); lia. }
    rewrite Hres, Hret, El.
    replace (Z.to_nat l) with 0%nat by lia. rewrite take_0.
    split; [reflexivity|]. split; [lia|]. rewrite Hdata. reflexivity.
Qed.

Lemma search_limit_zero_and_negative_witness :
  ∃ data st',
    fetch_search sample_env (search_args (lit "ONVIF") None (Some (-3))) sample_state
    = (Ok data, st')
    ∧ sd_results data = [] ∧ sd_returned data = 0 ∧ sd_total data = 2.
Proof.
  eexists _, _. split; [apply (fetch_search_healthy _ _ _ sample_env_healthy)|].
  destruct (search_limit_zero_and_negative sample_env
              (search_args (lit "ONVIF") None (Some (-3))) sample_state _ _
              (fetch_search_healthy _ _ _ sample_env_healthy)) as (_ & Hneg).
  destruct (Hneg (-3) eq_refl) as (H1 & H2 & H3); [lia|].
  split; [exact H1|]. split; [exact H2 | exact H3].
Defined.

(** ** More on chunked reading *)

(** X6. Defaults of a chunked read: without an offset (or with offset 0) and
    without a limit (or with limit 0) the page is the first 4000 code units of
    the text, or the whole text if it is shorter. *)
Theorem first_page_by_default
    (env : Env) (args : Args) (st : State) (r : DTRecord) (page : ContentPage)
    (st' : State) :
  dt_getRecordWithUuid (world env) (String_ (uuid args)) = Some r →
  offset args = None ∨ offset args = Some 0 →
  limit args = None ∨ limit args = Some 0 →
  fetch_page env args st = (Ok page, st') →
  let text := plainText_or_empty r in
  cp_offset page = 0
  ∧ cp_content page = take 4000 text
  ∧ cp_chunk_length page = Z.min 4000 (jslength text)
  ∧ cp_next_offset page = Z.min 4000 (jslength text)
  ∧ cp_has_more page = (4000 <? jslength text)
  ∧ cp_total_chars page = jslength text.
Proof.
  intros Hr Hoff Hlim Hfetch text.
  apply fetch_page_Ok in Hfetch as (r' & Hr' & -> & _).
  rewrite Hr in Hr'. injection Hr' as <-.
  assert (chunk_safeOffset args = 0) as ->
    by (unfold chunk_safeOffset; destruct Hoff as [-> | ->]; reflexivity).
  assert (chunk_safeLimit args = 4000) as ->
    by (unfold chunk_safeLimit; destruct Hlim as [-> | ->]; reflexivity).
  pose proof (jslength_nonneg text) as Hlen.
  destruct (page_of_inside r 0 4000) as (Ho & Hc & _ & Hk & Ht & Hn & Hm);
    [fold text; lia | lia |].
  fold text in Hc, Hk, Ht, Hn, Hm.
  rewrite Ho, Hc, Hk, Ht, Hn, Hm, Z.sub_0_r, drop_0.
  repeat split.
  - destruct (Z.min_spec 4000 (jslength text)) as [[_ ->] | [Hle ->]]; [reflexivity|].
    unfold jslength in *. rewrite !take_ge by lia. reflexivity.
  - destruct (Z.ltb_spec (0 + Z.min 4000 (jslength text)) (jslength text)),
             (Z.ltb_spec 4000 (jslength text)); auto; lia.
Qed.

Lemma first_page_by_default_witness :
  ∃ page st',
    fetch_page sample_env (default_args (lit "U1")) sample_state = (Ok page, st')
    ∧ cp_content page = lit "ONVIF profile notes, first draft"
    ∧ cp_has_more page = false.
Proof.
  eexists _, _.
  split; [apply (fetch_page_resolved sample_env (default_args (lit "U1")) _ doc_one
                   sample_env_healthy eq_refl)|].
  destruct (first_page_by_default sample_env (default_args (lit "U1")) sample_state doc_one
              _ _ eq_refl (or_introl eq_refl) (or_introl eq_refl)
              (fetch_page_resolved sample_env (default_args (lit "U1")) _ doc_one
                 sample_env_healthy eq_refl))
    as (_ & Hc & _ & _ & Hm & _).
  split; [rewrite Hc; reflexivity | rewrite Hm; reflexivity].
Defined.

Lemma substring_past_end (s : jsstring) (off lim : Z) :
  jslength s ≤ off → 0 ≤ lim → substring s off (off + lim) = [].
Proof.
  intros Hoff Hlim. unfold substring. pose proof (jslength_nonneg s).
  replace (Z.min (Z.max off 0) (jslength s)) with (jslength s) by lia.
  replace (Z.min (Z.max (off + lim) 0) (jslength s)) with (jslength s) by lia.
  rewrite Z.max_id, Z.min_id, Z.sub_diag. apply take_0.
Qed.

(** X7. An offset at or past the end of the text (with a limit that is not
    negative) is not an error: the page is empty, [has_more] is false and
    [next_offset] is the offset that was asked for. *)
Theorem offset_past_end
    (env : Env) (args : Args) (st : State) (r : DTRecord) (page : ContentPage)
    (st' : State) :
  dt_getRecordWithUuid (world env) (String_ (uuid args)) = Some r →
  jslength (plainText_or_empty r) ≤ chunk_safeOffset args →
  0 ≤ chunk_safeLimit args →
  fetch_page env args st = (Ok page, st') →
  cp_content page = []
  ∧ cp_chunk_length page = 0
  ∧ cp_has_more page = false
  ∧ cp_next_offset page = chunk_safeOffset args
  ∧ cp_total_chars page = jslength (plainText_or_empty r).
Proof.
  intros Hr Hoff Hlim Hfetch.
  apply fetch_page_Ok in Hfetch as (r' & Hr' & -> & _).
  rewrite Hr in Hr'. injection Hr' as <-.
  unfold page_of.
  cbn [cp_content cp_chunk_length cp_has_more cp_next_offset cp_total_chars].
  rewrite (substring_past_end _ _ _ Hoff Hlim). change (jslength []) with 0.
  rewrite Z.add_0_r. repeat split. apply Z.ltb_ge. exact Hoff.
Qed.

Lemma offset_past_end_witness :
  ∃ page st',
    fetch_page sample_env (chunk_args (lit "U1") 500 10) sample_state = (Ok page, st')
    ∧ cp_content page = [] ∧ cp_has_more page = false ∧ cp_next_offset page = 500.
Proof.
  eexists _, _.
  split; [apply (fetch_page_resolved sample_env (chunk_args (lit "U1") 500 10) _ doc_one
                   sample_env_healthy eq_refl)|].
  destruct (offset_past_end sample_env (chunk_args (lit "U1") 500 10) sample_state doc_one
              _ _ eq_refl ltac:(vm_compute; discriminate) ltac:(vm_compute; discriminate)
              (fetch_page_resolved sample_env (chunk_args (lit "U1") 500 10) sample_state
                 doc_one sample_env_healthy eq_refl))
    as (Hc & _ & Hm & Hn & _).
  split; [exact Hc|]. split; [exact Hm | exact Hn].
Defined.




(** ** The number of pages of a walk *)






(** ** More on the runners *)

(** X10. When the temporary file cannot be written, either runner throws the
    write failure without ever starting [osascript]; if no file of that name
    existed, the state is left as it was. *)
Theorem write_failure_spawns_nothing
    (env : Env) (script : Script) (timeoutMs : Z) (st : State) :
  (let tmp := jxa_tmp env (now st) in
   let run := runJXA env script timeoutMs st in
   writable env tmp = false →
   run.1 = Throw (WriteFailed tmp) ∧ spawned run.2 = spawned st
   ∧ (fs st !! tmp = None → run.2 = st))
  ∧ (let tmp := as_tmp env (now st) in
     let run := runAppleScript env script timeoutMs st in
     writable env tmp = false →
     run.1 = Throw (WriteFailed tmp) ∧ spawned run.2 = spawned st
     ∧ (fs st !! tmp = None → run.2 = st)).
Proof.
  split; cbv zeta; intros Hw;
    [rewrite runJXA_invocation | rewrite runAppleScript_invocation];
    unfold invocation; rewrite Hw; cbn [fst snd spawned];
    (split; [reflexivity|]); (split; [reflexivity|]);
    intros Hnone; rewrite (delete_id _ _ Hnone); destruct st; reflexivity.
Qed.

Lemma write_failure_spawns_nothing_witness :
  let env := {| tmpdir := lit "/readonly"; writable := λ _, false;
                world := sample_world; fault := λ _ _ _ _, NoFault |} in
  runJXA env (ChunkScript (lit "U1") 0 4000) 30000 sample_state
  = (Throw (WriteFailed (lit "/readonly/dt-jxa-1700000000000.js")), sample_state).
Proof.
  intros env.
  destruct (write_failure_spawns_nothing env (ChunkScript (lit "U1") 0 4000) 30000
              sample_state) as [H _].
  destruct (H eq_refl) as (H1 & _ & H3).
  rewrite (surjective_pairing (runJXA _ _ _ _)), H1, (H3 eq_refl). reflexivity.
Defined.

(** ** The two scripts of the group context *)

Lemma list_children_closed
    (w : World) (group_path database : jsstring) (maxDocs : Z) :
  run_script w AppleScript (ListChildrenScript group_path database maxDocs)
  = match dt_children w group_path database with
    | Some kids =>
        Returned (PText (concat (List.map line_of_record
                   (take (Z.to_nat maxDocs)
                      (List.filter (λ k, is_document (rec_type k)) kids)))))
    | None => Raised (lit "Can't get children of missing value.")
    end.
Proof.
  cbn [run_script]. unfold run_list_children.
  destruct (dt_children w group_path database); [|reflexivity].
  now rewrite children_loop_closed, Z.sub_0_r.
Qed.



Lemma batch_loop_lookup (w : World) (maxChars : Z) (uuids : list jsstring)
    (out : gmap jsstring jsstring) (u : jsstring) :
  batch_loop w maxChars uuids out !! u
  = if decide (u ∈ uuids)
    then Some (trim (substring (record_text w u) 0 maxChars))
    else out !! u.
Proof.
  revert out. induction uuids as [|x uuids IH]; intros out; cbn [batch_loop].
  - destruct (decide (u ∈ [])) as [H|_]; [now apply elem_of_nil in H | reflexivity].
  - rewrite IH. destruct (decide (u ∈ uuids)) as [Hin|Hout].
    + rewrite decide_True by (now right). reflexivity.
    + destruct (decide (u = x)) as [->|Hne].
      * rewrite decide_True by (now left). now rewrite lookup_insert_eq.
      * rewrite decide_False by (rewrite elem_of_cons; tauto).
        now rewrite lookup_insert_ne.
Qed.

Lemma substring_prefix_length (s : jsstring) (e : Z) :
  jslength (substring s 0 e) ≤ Z.max e 0.
Proof.
  unfold substring, jslength. rewrite length_take, length_drop.
  pose proof (jslength_nonneg s). unfold jslength in *. lia.
Qed.

(** X12. The mapping of the batch script. It has an entry for exactly the
    identities it was given. The entry is the trimmed first [maxChars] code
    units of the record's text, so it has at most [maxChars] code units; for an
    identity that does not resolve, or a record whose extraction throws or
    yields nothing, it is the empty string and the other entries are not
    affected. *)
Theorem batch_fetch_lookup
    (w : World) (uuids : list jsstring) (maxChars : Z) (u : jsstring) :
  ∃ contentMap,
    run_script w JXA (BatchScript uuids maxChars) = Returned (PContentMap contentMap)
    ∧ (u ∈ uuids →
       contentMap !! u = Some (trim (substring (record_text w u) 0 maxChars)))
    ∧ (u ∉ uuids → contentMap !! u = None)
    ∧ (u ∈ uuids →
       dt_getRecordWithUuid w u = None
       ∨ (∃ r, dt_getRecordWithUuid w u = Some r ∧ extraction_failed r) →
       contentMap !! u = Some [])
    ∧ (∀ v, contentMap !! u = Some v → jslength v ≤ Z.max maxChars 0).
Proof.
  eexists. split; [reflexivity|].
  assert (∀ v, trim (substring (record_text w u) 0 maxChars) = v →
               jslength v ≤ Z.max maxChars 0) as Hbound.
  { intros v <-. pose proof (trim_length (substring (record_text w u) 0 maxChars)).
    pose proof (substring_prefix_length (record_text w u) maxChars).
    unfold jslength in *. lia. }
  repeat split.
  - intros Hin. rewrite batch_loop_lookup. now rewrite decide_True.
  - intros Hout. rewrite batch_loop_lookup. now rewrite decide_False.
  - intros Hin Hempty. rewrite batch_loop_lookup, decide_True by assumption.
    assert (record_text w u = []) as ->.
    { unfold record_text. destruct Hempty as [-> | (r & -> & Hfail)];
        [reflexivity | now apply extraction_failed_empty]. }
    now rewrite substring_empty.
  - intros v. rewrite batch_loop_lookup.
    destruct (decide (u ∈ uuids)); [|now rewrite lookup_empty].
    intros [= Hv]. now apply Hbound.
Qed.

Lemma batch_fetch_lookup_witness :
  ∃ contentMap,
    run_script sample_world JXA (BatchScript [lit "U1"; lit "U2"; lit "U9"] 5)
    = Returned (PContentMap contentMap)
    ∧ contentMap !! lit "U1" = Some (lit "ONVIF")
    ∧ contentMap !! lit "U2" = Some []
    ∧ contentMap !! lit "U9" = Some []
    ∧ contentMap !! lit "U3" = None.
Proof.
  destruct (batch_fetch_lookup sample_world [lit "U1"; lit "U2"; lit "U9"] 5 (lit "U1"))
    as (m1 & Hrun & Hin1 & _).
  destruct (batch_fetch_lookup sample_world [lit "U1"; lit "U2"; lit "U9"] 5 (lit "U2"))
    as (m2 & Hrun2 & _ & _ & Hfail2 & _).
  destruct (batch_fetch_lookup sample_world [lit "U1"; lit "U2"; lit "U9"] 5 (lit "U9"))
    as (m3 & Hrun3 & _ & _ & Hfail3 & _).
  destruct (batch_fetch_lookup sample_world [lit "U1"; lit "U2"; lit "U9"] 5 (lit "U3"))
    as (m4 & Hrun4 & _ & Hout4 & _).
  rewrite Hrun in Hrun2, Hrun3, Hrun4.
  injection Hrun2 as <-. injection Hrun3 as <-. injection Hrun4 as <-.
  exists m1. split; [exact Hrun|].
  split; [rewrite Hin1; [reflexivity | apply (bool_decide_unpack _); vm_compute; exact I]|].
  split.
  { apply Hfail2; [apply (bool_decide_unpack _); vm_compute; exact I|].
    right. exists doc_two. split; [reflexivity | left; reflexivity]. }
  split.
  { apply Hfail3; [apply (bool_decide_unpack _); vm_compute; exact I|].
    left. reflexivity. }
  apply Hout4. apply (bool_decide_unpack _). vm_compute. exact I.
Defined.

(** ** The navigation output after the runner's trim *)











(** ** The group context, end to end *)

Lemma group_in_handlers : ("dt_get_group_context"%string, getGroupContext) ∈ handlers.
Proof. unfold handlers. do 2 right. left. Qed.

(** X13. A failure of the navigation phase ends dt_get_group_context: the
    handler throws that failure, no process other than the navigation one has
    run, and the dispatch answers with the error block of the failure. In
    particular a group path or database that does not resolve is answered with
    an error block, not with the "is empty or not found" message. *)
Theorem navigation_failure_stops_group_context
    (env : Env) (args : Args) (st : State) :
  (∀ e st1,
     runAppleScript env (list_children_script args) 30000 st = (Throw e, st1) →
     getGroupContext env args st = (Throw e, st1)
     ∧ Forall (λ sp, sp_dialect sp = AppleScript) (drop (length (spawned st)) (spawned st1))
     ∧ ∃ resp,
         call_tool env (tool_request "dt_get_group_context" args) st = (Ok resp, st1)
         ∧ reports resp e)
  ∧ (healthy env →
     dt_children (world env) (String_ (group_path args)) (String_ (database args)) = None →
     ∃ e st1 resp,
       getGroupContext env args st = (Throw e, st1)
       ∧ call_tool env (tool_request "dt_get_group_context" args) st = (Ok resp, st1)
       ∧ reports resp e
       ∧ resp ≠ text_response (empty_or_not_found args)
       ∧ spawned st1
         = spawned st ++ [spawn_of AppleScript (as_tmp env (now st)) 30000
                            (list_children_script args)]).
Proof.
  assert (∀ e st1,
            getGroupContext env args st = (Throw e, st1) →
            ∃ resp, call_tool env (tool_request "dt_get_group_context" args) st = (Ok resp, st1)
                    ∧ reports resp e) as Hcall.
  { intros e st1 Hthrow. rewrite (call_tool_handler _ _ _ _ _ group_in_handlers).
    unfold try_catch. rewrite Hthrow. eexists. split; [reflexivity|]. split; reflexivity. }
  assert (∀ e st1,
            runAppleScript env (list_children_script args) 30000 st = (Throw e, st1) →
            getGroupContext env args st = (Throw e, st1)) as Hthrow.
  { intros e st1 Hrun. unfold getGroupContext, mbind, M_bind. now rewrite Hrun. }
  split.
  - intros e st1 Hrun. split; [now apply Hthrow|]. split; [|now apply Hcall, Hthrow].
    rewrite runAppleScript_invocation in Hrun.
    destruct (invocation_spawned env AppleScript (as_tmp env (now st))
                (list_children_script args) 30000 st) as (new & Hnew & Hall).
    rewrite Hrun in Hnew. cbn [snd] in Hnew. rewrite Hnew, drop_app_length.
    eapply Forall_impl; [exact Hall|]. intros sp ->. reflexivity.
  - intros Hh Hnone.
    assert (runAppleScript env (list_children_script args) 30000 st
            = (Throw (CommandFailed (command_line AppleScript (as_tmp env (now st)))
                        (lit "execution error: Error: "
                         ++ lit "Can't get children of missing value.")),
               after_run AppleScript (as_tmp env (now st)) 30000
                 (list_children_script args) st)) as Hrun.
    { rewrite (runAppleScript_healthy _ _ _ _ Hh). f_equal.
      unfold script_result, list_children_script.
      rewrite list_children_closed, Hnone. reflexivity. }
    destruct (Hcall _ _ (Hthrow _ _ Hrun)) as (resp & Hresp & Hrep).
    eexists _, _, resp. split; [exact (Hthrow _ _ Hrun)|]. split; [exact Hresp|].
    split; [exact Hrep|]. split; [|reflexivity].
    intros ->. destruct Hrep as [_ Hflag]. discriminate Hflag.
Qed.

Lemma navigation_failure_stops_group_context_witness :
  (∃ resp st1,
     call_tool sample_env
       (tool_request "dt_get_group_context"
          (group_args (lit "/Nowhere") (lit "Active_Work") None)) sample_state
     = (Ok resp, st1)
     ∧ isError resp = true
     ∧ List.map sp_dialect (spawned st1) = [AppleScript])
  ∧ (∃ resp st1,
       call_tool hanging_env
         (tool_request "dt_get_group_context"
            (group_args (lit "/Projects") (lit "Active_Work") None)) sample_state
       = (Ok resp, st1)
       ∧ reports resp
           (CommandTimedOut (lit "osascript /tmp/dt-as-1700000000000.applescript"))).
Proof.
  split.
  - destruct (navigation_failure_stops_group_context sample_env
                (group_args (lit "/Nowhere") (lit "Active_Work") None) sample_state)
      as [_ Hnone].
    destruct (Hnone sample_env_healthy eq_refl)
      as (e & st1 & resp & _ & Hcall & (_ & Hflag) & _ & Hspawned).
    exists resp, st1. split; [exact Hcall|]. split; [exact Hflag|].
    rewrite Hspawned. reflexivity.
  - destruct (navigation_failure_stops_group_context hanging_env
                (group_args (lit "/Projects") (lit "Active_Work") None) sample_state)
      as [Hany _].
    destruct (Hany (CommandTimedOut (lit "osascript /tmp/dt-as-1700000000000.applescript"))
                (after_run AppleScript (as_tmp hanging_env (now sample_state)) 30000
                   (list_children_script
                      (group_args (lit "/Projects") (lit "Active_Work") None))
                   sample_state))
      as (_ & _ & resp & Hcall & Hrep).
    + vm_compute. reflexivity.
    + exists resp. eexists. split; [exact Hcall | exact Hrep].
Defined.




(** ** The tool list and the dispatch *)

Lemma call_tool_cases env req st :
  (∃ name h,
     (name, h) ∈ handlers ∧ req_name req = lit name ∧ req_name req ∈ listed_names
     ∧ call_tool env req st
       = try_catch (h env (default no_args (req_arguments req))) catch_all st)
  ∨ ((req_name req ∉ listed_names)
     ∧ call_tool env req st
       = (Ok (error_response (lit "Unknown tool: " ++ req_name req)), st)).
Proof.
  destruct req as [name oargs]. cbn [req_name req_arguments].
  destruct (decide (name = lit "dt_search_with_excerpts")) as [->|H1].
  { left. eexists _, _. split; [apply list_elem_of_here|]. split; [reflexivity|].
    split; [apply (bool_decide_unpack _); vm_compute; exact I | reflexivity]. }
  destruct (decide (name = lit "dt_get_content_chunked")) as [->|H2].
  { left. eexists _, _. split; [right; apply list_elem_of_here|]. split; [reflexivity|].
    split; [apply (bool_decide_unpack _); vm_compute; exact I | reflexivity]. }
  destruct (decide (name = lit "dt_get_group_context")) as [->|H3].
  { left. eexists _, _. split; [exact group_in_handlers|]. split; [reflexivity|].
    split; [apply (bool_decide_unpack _); vm_compute; exact I | reflexivity]. }
  right. split.
  - change listed_names
      with [lit "dt_search_with_excerpts"; lit "dt_get_content_chunked";
            lit "dt_get_group_context"].
    rewrite !not_elem_of_cons. repeat split; try assumption. apply not_elem_of_nil.
  - unfold call_tool, eqb, try_catch. cbn [req_name req_arguments].
    rewrite !bool_decide_eq_false_2 by assumption. reflexivity.
Qed.

Ltac handler_returns :=
  repeat match goal with
    | |- context [match ?x with (_, _) => _ end] => destruct x as [[?|?] ?]
    | |- context [match ?x with PText _ => _ | _ => _ end] => destruct x
    | |- context [if ?b then _ else _] => destruct b
    | _ => progress cbn [mret M_ret throw stdout_text JSON_parse_search JSON_parse_page
                         JSON_parse_map]
    end;
  try discriminate; try (intros [= <- _]; eexists; reflexivity).

Lemma handler_returns_text env name h args st resp st' :
  (name, h) ∈ handlers → h env args st = (Ok resp, st') → ∃ t, resp = text_response t.
Proof.
  unfold handlers. intros Hin.
  repeat (apply elem_of_cons in Hin as [[= -> ->]|Hin]); [| | | now apply elem_of_nil in Hin].
  - unfold searchWithExcerpts, fetch_search, mbind, M_bind. handler_returns.
  - unfold getContentChunked, fetch_page, mbind, M_bind. handler_returns.
  - unfold getGroupContext, mbind, M_bind. handler_returns.
Qed.

(** X15. The tools the server lists are the tools it dispatches. The three
    listed names are distinct; a request for a listed name runs the handler of
    that name inside the catch-all; a request for any other name (names are
    compared exactly) is answered "Unknown tool: <name>", flagged as an error,
    without running a process or touching a file. A request for a listed name
    is never answered that way. *)
Theorem listed_tools_are_dispatched (env : Env) (req : Request) (st : State) :
  NoDup listed_names
  ∧ (req_name req ∈ listed_names →
     (∃ name h,
        (name, h) ∈ handlers ∧ req_name req = lit name
        ∧ call_tool env req st
          = try_catch (h env (default no_args (req_arguments req))) catch_all st)
     ∧ (call_tool env req st).1
       ≠ Ok (error_response (lit "Unknown tool: " ++ req_name req)))
  ∧ (req_name req ∉ listed_names →
     call_tool env req st
     = (Ok (error_response (lit "Unknown tool: " ++ req_name req)), st)).
Proof.
  split; [apply (bool_decide_unpack _); vm_compute; exact I|].
  destruct (call_tool_cases env req st)
    as [(name & h & Hin & Hname & Hlisted & Hcall) | [Hnot Hcall]].
  - split; [|intros Hnot; now destruct Hnot].
    intros _. split; [eauto|].
    rewrite Hcall. unfold try_catch.
    destruct (h env (default no_args (req_arguments req)) st) as [[resp|e] st1] eqn:Hh.
    + destruct (handler_returns_text _ _ _ _ _ _ _ Hin Hh) as [t ->].
      cbn [fst]. unfold text_response, error_response. congruence.
    + cbn [catch_all mret M_ret fst]. intros [=].
  - split; [intros Hin; now destruct Hnot | intros _; exact Hcall].
Qed.

Lemma listed_tools_are_dispatched_witness :
  call_tool sample_env {| req_name := lit "DT_GET_CONTENT_CHUNKED"; req_arguments := None |}
    sample_state
  = (Ok (error_response (lit "Unknown tool: DT_GET_CONTENT_CHUNKED")), sample_state)
  ∧ ∃ name h,
      (name, h) ∈ handlers ∧ lit "dt_get_group_context" = lit name.
Proof.
  split.
  - apply (listed_tools_are_dispatched sample_env
             {| req_name := lit "DT_GET_CONTENT_CHUNKED"; req_arguments := None |}
             sample_state).
    apply (bool_decide_unpack _). vm_compute. exact I.
  - destruct (listed_tools_are_dispatched sample_env
                {| req_name := lit "dt_get_group_context"; req_arguments := None |}
                sample_state) as (_ & Hlisted & _).
    destruct Hlisted as [(name & h & Hin & Hname & _) _].
    + apply (bool_decide_unpack _). vm_compute. exact I.
    + exists name, h. split; assumption.
Defined.

(** X16. Every answer of the dispatch is a single block of type text. It is
    flagged as an error only when the tool name is not listed or the handler
    threw, in which case the text is "Error: " and the failure's message; a
    handler that returns never flags its own answer. *)
Theorem responses_are_single_text_blocks
    (env : Env) (req : Request) (st : State) (resp : Response) (st' : State) :
  call_tool env req st = (Ok resp, st') →
  one_text_block resp
  ∧ (isError resp = true →
     req_name req ∉ listed_names
     ∨ ∃ name h e,
         (name, h) ∈ handlers ∧ req_name req = lit name
         ∧ h env (default no_args (req_arguments req)) st = (Throw e, st')
         ∧ reports resp e)
  ∧ (∀ name h r st1,
       (name, h) ∈ handlers →
       h env (default no_args (req_arguments req)) st = (Ok r, st1) →
       isError r = false ∧ one_text_block r).
Proof.
  intros Hcall. split; [|split].
  - destruct (call_tool_cases env req st)
      as [(name & h & Hin & Hname & _ & Hc) | [_ Hc]];
      rewrite Hc in Hcall.
    + unfold try_catch in Hcall.
      destruct (h env _ st) as [[r|e] st1] eqn:Hh.
      * injection Hcall as <- _.
        destruct (handler_returns_text _ _ _ _ _ _ _ Hin Hh) as [t ->]. now exists t.
      * injection Hcall as <- _. eexists. reflexivity.
    + injection Hcall as <- _. eexists. reflexivity.
  - intros Hflag.
    destruct (call_tool_cases env req st)
      as [(name & h & Hin & Hname & _ & Hc) | [Hnot _]]; [|now left].
    right. rewrite Hc in Hcall. unfold try_catch in Hcall.
    destruct (h env _ st) as [[r|e] st1] eqn:Hh.
    + injection Hcall as <- _.
      destruct (handler_returns_text _ _ _ _ _ _ _ Hin Hh) as [t ->]. discriminate Hflag.
    + injection Hcall as <- <-. exists name, h, e.
      repeat split; assumption.
  - intros name h r st1 Hin Hh.
    destruct (handler_returns_text _ _ _ _ _ _ _ Hin Hh) as [t ->].
    split; [reflexivity | now exists t].
Qed.

Lemma responses_are_single_text_blocks_witness :
  ∃ resp st',
    call_tool sample_env
      (tool_request "dt_search_with_excerpts" (search_args (lit "ONVIF") None None))
      sample_state
    = (Ok resp, st')
    ∧ one_text_block resp ∧ isError resp = false.
Proof.
  destruct (call_tool_total sample_env
              (tool_request "dt_search_with_excerpts" (search_args (lit "ONVIF") None None))
              sample_state) as (resp & st' & Hcall).
  exists resp, st'. split; [exact Hcall|].
  destruct (responses_are_single_text_blocks _ _ _ _ _ Hcall) as (Hblock & _ & _).
  split; [exact Hblock|].
  vm_compute in Hcall. injection Hcall as <- _. reflexivity.
Defined.

(** ** What a tool call leaves behind *)










(** ** Invariants of every page *)



